(** * Echosounder sample grids: a model of [echolab2/processing/processed_data.py]

    The Python class [processed_data] keeps a 2-d array of samples together
    with the 1-d arrays of its two axes, and edits them in place.  This file
    embeds the class method by method:

    - [py]: Python's exceptions and the state-and-exception monad in which a
      method runs (the state is the object, or the store of objects, that the
      method mutates; what was mutated before a [raise] stays mutated);
    - [np]: the part of numpy the class calls, on binary64 floats;
    - [processed_data]: the record of an instance and its methods, each under
      the name it has in the source.

    The base class [sample_data] and the [mask] class are imported by the
    source but are not part of it.  The base class's primitives are taken as
    a parameter ([container]); [grid_container] is one implementation of
    them, written from the specification's description of the grid
    container. *)

From Stdlib Require Import ZArith PrimFloat FloatOps SpecFloat.
From Stdlib Require FloatAxioms.
From stdpp Require Import gmap strings list.

#[local] Open Scope string_scope.
#[local] Open Scope list_scope.
#[local] Open Scope nat_scope.

(** ** Python: exceptions, results, methods *)

Module py.

(** The exception classes the code raises or provokes; the argument is the
    message. *)
Inductive exn : Type :=
| TypeError (msg : string)
| ValueError (msg : string)
| AttributeError (msg : string)
| IndexError (msg : string)
| UnboundLocalError (msg : string)
| NameError (msg : string).

Inductive result (A : Type) : Type :=
| Raised (e : exn)
| Returned (a : A).
Arguments Raised {A} e.
Arguments Returned {A} a.

(** A computation over a mutable state [S]: it ends by returning or by
    raising, and in both cases leaves a state behind. *)
Definition t (S A : Type) : Type := S → result A * S.

Definition ret {S A} (a : A) : t S A := λ s, (Returned a, s).
Definition raise {S A} (e : exn) : t S A := λ s, (Raised e, s).
Definition bind {S A B} (m : t S A) (k : A → t S B) : t S B :=
  λ s, match m s with
       | (Raised e, s') => (Raised e, s')
       | (Returned a, s') => k a s'
       end.

Definition get {S} : t S S := λ s, (Returned s, s).
Definition put {S} (s : S) : t S unit := λ _, (Returned tt, s).
Definition gets {S A} (f : S → A) : t S A := λ s, (Returned (f s), s).
Definition modify {S} (f : S → S) : t S unit := λ s, (Returned tt, f s).

(** A pure step that may raise. *)
Definition lift {S A} (r : result A) : t S A := λ s, (r, s).

(** [for x in l: body(x)]. *)
Fixpoint for_each {S A} (l : list A) (body : A → t S unit) : t S unit :=
  match l with
  | [] => ret tt
  | x :: l' => bind (body x) (λ _, for_each l' body)
  end.

(** A computation keeps an invariant of the state, whether it returns or
    raises. *)
Definition preserves {S A} (P : S → Prop) (m : t S A) : Prop :=
  ∀ s, P s → P (m s).2.

(** A [for] loop that rebinds one local variable. *)
Fixpoint for_fold {S A B} (l : list A) (acc : B) (body : A → B → t S B)
    : t S B :=
  match l with
  | [] => ret acc
  | x :: l' => bind (body x acc) (λ acc', for_fold l' acc' body)
  end.

(** [s[0]] on a string *)
Definition first_char (s : string) : result Ascii.ascii :=
  match s with
  | String c _ => Returned c
  | EmptyString => Raised (IndexError "string index out of range")
  end.

(** Binding of a call's arguments to a function's parameters ([self]
    apart): more positional arguments than parameters, or a keyword that
    names no parameter, is a [TypeError] before the body runs. *)
Definition bind_arguments (fname : string) (params : list string)
    (n_positional : nat) (keywords : list string) : result unit :=
  match filter (λ k, k ∉ params) keywords with
  | k :: _ =>
      Raised (TypeError (fname +:+ "() got an unexpected keyword argument '"
                           +:+ k +:+ "'"))
  | [] =>
      if decide (length params < n_positional)
      then Raised (TypeError (fname +:+ "() takes too many positional arguments"))
      else Returned tt
  end.

Definition call {S A} (fname : string) (params : list string)
    (n_positional : nat) (keywords : list string) (body : t S A) : t S A :=
  bind (lift (bind_arguments fname params n_positional keywords)) (λ _, body).

(** [str.lower()], on ASCII. *)
Definition lower_ascii (c : Ascii.ascii) : Ascii.ascii :=
  let n := Ascii.nat_of_ascii c in
  if bool_decide (65 ≤ n ≤ 90)%nat then Ascii.ascii_of_nat (n + 32) else c.

Fixpoint lower (s : string) : string :=
  match s with
  | EmptyString => EmptyString
  | String c s' => String (lower_ascii c) (lower s')
  end.

End py.

#[global] Instance py_ret {S} : MRet (py.t S) := λ A, py.ret.
#[global] Instance py_bind {S} : MBind (py.t S) := λ A B k m, py.bind m k.

Notation "m ;; k" := (mbind (λ _, k) m)
  (at level 100, k at level 200, right associativity, only parsing) : stdpp_scope.

#[global] Instance result_ret : MRet py.result := λ A, py.Returned.
#[global] Instance result_fmap : FMap py.result :=
  λ A B f r, match r with py.Raised e => py.Raised e | py.Returned a => py.Returned (f a) end.
#[global] Instance result_bind : MBind py.result :=
  λ A B k r, match r with py.Raised e => py.Raised e | py.Returned a => k a end.

(** ** numpy: the arrays and functions the class uses *)

Module np.

Import py.
#[local] Open Scope float_scope.

(** The arrays a grid holds: 1-d and 2-d float arrays (axes, per-ping
    values, samples) and 1-d [datetime64] arrays (ping times, as integer
    ticks).  A 2-d array is the list of its rows; float32 storage is not
    distinguished from float64. *)
Inductive ndarray : Type :=
| Float1 (v : list float)
| Float2 (rows : list (list float))
| Time1 (ticks : list Z).

Definition ndim (a : ndarray) : nat :=
  match a with Float1 _ | Time1 _ => 1 | Float2 _ => 2 end.

(** [a.shape[0]] *)
Definition shape0 (a : ndarray) : nat :=
  match a with
  | Float1 v => length v
  | Float2 rows => length rows
  | Time1 ticks => length ticks
  end.

(** The functions of numpy that have no counterpart on Rocq's binary64
    floats; the model is parametric in them. *)
Record ufuncs : Type := {
  power : float → float → float;      (* [x ** y] *)
  log10 : float → float;              (* [np.log10(x)] *)
  ceil : float → float;               (* [np.ceil(x)] *)
  float32 : float → float;            (* [x.astype('float32')] *)
  uint : float → nat;                 (* [x.astype('uint')] *)
}.

Fixpoint float_of_nat (n : nat) : float :=
  match n with O => 0 | S k => float_of_nat k + 1 end.

(** [np.arange(n)], as floats *)
Definition arange (n : nat) : list float := float_of_nat <$> seq 0 n.

(** The smaller of two floats as [np.min] reduces: a NaN wins. *)
Definition fmin (a b : float) : float :=
  if is_nan a then a else if is_nan b then b else if b <? a then b else a.

Definition fmax (a b : float) : float :=
  if is_nan a then a else if is_nan b then b else if a <? b then b else a.

Definition min (l : list float) : result float :=
  match l with
  | [] => Raised (ValueError "zero-size array to reduction operation minimum which has no identity")
  | x :: l' => Returned (foldl fmin x l')
  end.

Definition max (l : list float) : result float :=
  match l with
  | [] => Raised (ValueError "zero-size array to reduction operation maximum which has no identity")
  | x :: l' => Returned (foldl fmax x l')
  end.

(** A zero, of either sign. *)
Definition zero (x : float) : Prop := x = 0 ∨ x = -0.

(** [np.ediff1d(l)]: the differences of consecutive elements *)
Definition ediff1d (l : list float) : list float :=
  zip_with (λ x y, y - x) l (tail l).

(** [np.mean(l)], summing from the left; the mean of no element is NaN *)
Definition mean (l : list float) : float :=
  foldl PrimFloat.add 0 l / float_of_nat (length l).

(** [np.isclose(a, b)] with the default tolerances [rtol=1e-05],
    [atol=1e-08], on one pair of elements *)
Definition rtol : float := 0x1.4f8b588e368f1p-17.
Definition atol : float := 0x1.5798ee2308c3ap-27.

Definition isclose1 (a b : float) : bool :=
  if is_finite a && is_finite b
  then abs (a - b) <=? atol + rtol * abs b
  else a =? b.

(** Elementwise application to two 1-d arrays, which must have one length
    unless one of them has a single element. *)
Definition broadcast2 {A} (f : float → float → A) (a b : list float)
    : result (list A) :=
  if (length a =? length b)%nat then Returned (zip_with f a b)
  else match a, b with
       | [x], _ => Returned (f x <$> b)
       | _, [y] => Returned ((λ x, f x y) <$> a)
       | _, _ => Raised (ValueError "operands could not be broadcast together")
       end.

Definition isclose (a b : list float) : result (list bool) :=
  broadcast2 isclose1 a b.

Definition all (l : list bool) : bool := forallb id l.

(** [np.array_equal] on 1-d arrays: same length and equal elements (a NaN
    equals nothing) *)
Fixpoint array_equal_float (a b : list float) : bool :=
  match a, b with
  | [], [] => true
  | x :: a', y :: b' => (x =? y) && array_equal_float a' b'
  | _, _ => false
  end.

Definition array_equal_time (a b : list Z) : bool := bool_decide (a = b).

Definition array_equal (a b : ndarray) : bool :=
  match a, b with
  | Float1 v, Float1 w => array_equal_float v w
  | Float2 r, Float2 q =>
      (length r =? length q)%nat && forallb id (zip_with array_equal_float r q)
  | Time1 v, Time1 w => array_equal_time v w
  | _, _ => false
  end.

(** A float function applied to every element; a [datetime64] array takes
    no float arithmetic. *)
Definition map_float (f : float → float) (a : ndarray) : result ndarray :=
  match a with
  | Float1 v => Returned (Float1 (map f v))
  | Float2 rows => Returned (Float2 (map (map f) rows))
  | Time1 _ => Raised (TypeError "ufunc cannot use operands with types datetime64 and float64")
  end.

(** [a[0]] *)
Definition first (a : ndarray) : result ndarray :=
  match a with
  | Float1 (x :: _) => Returned (Float1 [x])
  | Float2 (row :: _) => Returned (Float1 row)
  | Time1 (x :: _) => Returned (Time1 [x])
  | _ => Raised (IndexError "index 0 is out of bounds for axis 0 with size 0")
  end.

(** [a[idx]] with an array of indices, on a 1-d array *)
Definition take_indices {A} (l : list A) (idx : list nat) : result (list A) :=
  mapM (λ i, match l !! i with
             | Some x => Returned x
             | None => Raised (IndexError "index is out of bounds for axis 0")
             end) idx.

Definition getitem_indices (a : ndarray) (idx : list nat) : result ndarray :=
  match a with
  | Float1 v => Float1 <$> take_indices v idx
  | Float2 rows => Float2 <$> take_indices rows idx
  | Time1 v => Time1 <$> take_indices v idx
  end.

(** The truth value of an index array in [if (index_array):]: that of its
    element when it has one, [False] when it has none (with a deprecation
    warning), and an error otherwise; [None] is false. *)
Definition truth (index_array : option (list nat)) : result bool :=
  match index_array with
  | None | Some [] => Returned false
  | Some [i] => Returned (negb (i =? 0)%nat)
  | Some _ => Raised (ValueError "The truth value of an array with more than one element is ambiguous. Use a.any() or a.all()")
  end.

(** A slice [start:stop:step] with bounds that are not negative. *)
Record slice : Type := {
  start : option nat;
  stop : option nat;
  step : option nat;
}.

Fixpoint every {A} (k : nat) (l : list A) (fuel : nat) : list A :=
  match fuel, l with
  | S fuel', x :: _ => x :: every k (drop k l) fuel'
  | _, _ => []
  end.

Definition getitem_slice {A} (s : slice) (l : list A) : result (list A) :=
  let lo := default 0%nat (start s) in
  let hi := default (length l) (stop s) in
  match default 1%nat (step s) with
  | O => Raised (ValueError "slice step cannot be zero")
  | k => Returned (every k (drop lo (take hi l)) (length l))
  end.

(** [np.interp(x, xp, fp, left, right)] at one point [x], for [xp]
    increasing: the first interval [xp[j] <= x < xp[j+1]] is found from the
    left and the value is [slope * (x - xp[j]) + fp[j]]; the second formula
    that recent numpy versions try when this one is NaN is left out. *)
Fixpoint interp_in (x : float) (xp fp : list float) : float :=
  match xp, fp with
  | x0 :: ((x1 :: _) as xp'), y0 :: ((y1 :: _) as fp') =>
      if x <? x1
      then (if x0 =? x then y0 else (y1 - y0) / (x1 - x0) * (x - x0) + y0)
      else interp_in x xp' fp'
  | [_], [y0] => y0
  | _, _ => nan
  end.

Definition interp1 (xp fp : list float) (left right : float) (x : float) : float :=
  match xp, fp with
  | [x0], [y0] => if x <? x0 then left else if x0 <? x then right else y0
  | x0 :: _, _ =>
      if is_nan x then x
      else if default x0 (last xp) <? x then right
      else if x <? x0 then left
      else interp_in x xp fp
  | [], _ => nan
  end.

Definition interp (x xp fp : list float) (left right : float)
    : result (list float) :=
  if (length xp =? 0)%nat
  then Raised (ValueError "array of sample points is empty")
  else if negb (length fp =? length xp)%nat
  then Raised (ValueError "fp and xp are not of the same length.")
  else Returned (interp1 xp fp left right <$> x).

(** [rows[ping, :] = v]: [v] must fill the row, or hold one value that is
    repeated over it. *)
Definition set_row (rows : list (list float)) (ping : nat) (v : list float)
    : result (list (list float)) :=
  match rows !! ping with
  | None => Raised (IndexError "index is out of bounds for axis 0")
  | Some row =>
      if (length v =? length row)%nat then Returned (<[ping := v]> rows)
      else match v with
           | [x] => Returned (<[ping := replicate (length row) x]> rows)
           | _ => Raised (ValueError "could not broadcast input array")
           end
  end.

(** [rows[ping, :n]] *)
Definition get_row (rows : list (list float)) (ping n : nat)
    : result (list float) :=
  match rows !! ping with
  | None => Raised (IndexError "index is out of bounds for axis 0")
  | Some row => Returned (take n row)
  end.

(** Boolean-array indexing [rows[mask]] with a mask of the array's shape:
    the selected elements, row after row. *)
Fixpoint select {A} (row : list A) (m : list bool) : list A :=
  match row, m with
  | x :: row', b :: m' => if b then x :: select row' m' else select row' m'
  | _, _ => []
  end.

Definition same_shape {A B} (a : list (list A)) (b : list (list B)) : bool :=
  (length a =? length b)%nat
  && forallb id (zip_with (λ r s, (length r =? length s)%nat) a b).

Definition getitem_mask2 (rows : list (list float)) (m : list (list bool))
    : result (list float) :=
  if same_shape rows m
  then Returned (concat (zip_with select rows m))
  else Raised (IndexError "boolean index did not match indexed array").

(** [rows[mask]] with a 1-d mask: the selected rows. *)
Definition getitem_mask1 (rows : list (list float)) (m : list bool)
    : result (list (list float)) :=
  if (length rows =? length m)%nat
  then Returned (select rows m)
  else Raised (IndexError "boolean index did not match indexed array").

End np.

(** ** Masks *)

Module mask.

Inductive array : Type :=
| Mask1 (v : list bool)
| Mask2 (rows : list (list bool)).

(** Modelled from the spec: the [mask] class of [echolab2.processing] is not
    among the sources.  A mask is "a boolean array, a type tag
    ([ping]|[sample]), and copies of [ping_time]/vertical-axis for
    compatibility checks"; it has at most one of [range] and [depth]. *)
Record t : Type := mk {
  type : string;
  mask : array;
  ping_time : list Z;
  range : option (list float);
  depth : option (list float);
}.

(** The number of [True] entries. *)
Fixpoint count_true (v : list bool) : nat :=
  match v with
  | [] => 0
  | b :: v' => (if b then 1 else 0) + count_true v'
  end.

Definition count (a : array) : nat :=
  match a with
  | Mask1 v => count_true v
  | Mask2 rows => sum_list (count_true <$> rows)
  end.

End mask.

(** ** The class [processed_data] *)

Module processed_data.

Import py.
#[local] Open Scope float_scope.

(** An instance.  The fields are the attributes that [__init__] and the
    base class set; [attrs] holds the attributes that are attached by name
    ([range] or [depth], [ping_time], the sample arrays), and
    [_data_attributes] is the registry that lists them in the order they
    were added. *)
Record t : Type := mk {
  channel_id : list string;
  frequency : Z;
  data_type : string;
  sample_thickness : float;
  sample_offset : nat;
  n_pings : nat;
  n_samples : nat;
  _data_attributes : list string;
  attrs : gmap string np.ndarray;
}.

Definition set_channel_id (v : list string) (o : t) : t :=
  mk v (frequency o) (data_type o) (sample_thickness o) (sample_offset o)
     (n_pings o) (n_samples o) (_data_attributes o) (attrs o).

Definition set_frequency (v : Z) (o : t) : t :=
  mk (channel_id o) v (data_type o) (sample_thickness o) (sample_offset o)
     (n_pings o) (n_samples o) (_data_attributes o) (attrs o).

Definition set_data_type (v : string) (o : t) : t :=
  mk (channel_id o) (frequency o) v (sample_thickness o) (sample_offset o)
     (n_pings o) (n_samples o) (_data_attributes o) (attrs o).

Definition set_sample_thickness (v : float) (o : t) : t :=
  mk (channel_id o) (frequency o) (data_type o) v (sample_offset o)
     (n_pings o) (n_samples o) (_data_attributes o) (attrs o).

Definition set_sample_offset (v : nat) (o : t) : t :=
  mk (channel_id o) (frequency o) (data_type o) (sample_thickness o) v
     (n_pings o) (n_samples o) (_data_attributes o) (attrs o).

Definition set_n_pings (v : nat) (o : t) : t :=
  mk (channel_id o) (frequency o) (data_type o) (sample_thickness o)
     (sample_offset o) v (n_samples o) (_data_attributes o) (attrs o).

Definition set_n_samples (v : nat) (o : t) : t :=
  mk (channel_id o) (frequency o) (data_type o) (sample_thickness o)
     (sample_offset o) (n_pings o) v (_data_attributes o) (attrs o).

Definition set__data_attributes (v : list string) (o : t) : t :=
  mk (channel_id o) (frequency o) (data_type o) (sample_thickness o)
     (sample_offset o) (n_pings o) (n_samples o) v (attrs o).

Definition set_attrs (v : gmap string np.ndarray) (o : t) : t :=
  mk (channel_id o) (frequency o) (data_type o) (sample_thickness o)
     (sample_offset o) (n_pings o) (n_samples o) (_data_attributes o) v.

(** Modelled from the spec: the constructor of the base class
    [sample_data], which is not among the sources.  The base class owns the
    "raw dimension counters" and the "attribute registry": a new instance
    has no ping, no sample and nothing registered.  The other fields are
    those [__init__] sets next. *)
Definition sample_data__init__ : t :=
  {| channel_id := []; frequency := 0; data_type := "";
     sample_thickness := 0; sample_offset := 0;
     n_pings := 0; n_samples := 0; _data_attributes := []; attrs := ∅ |}.

(** [__init__(self, channel_id, frequency, data_type)] *)
Definition __init__ (channel_id : list string) (frequency : Z)
    (data_type : string) : t :=
  let self := sample_data__init__ in
  let self := set_channel_id channel_id self in
  let self := set_frequency frequency self in
  let self := set_data_type data_type self in
  let self := set_sample_thickness 0 self in
  set_sample_offset 0 self.

Definition hasattr (name : string) (o : t) : bool :=
  bool_decide (is_Some (attrs o !! name)).

Definition getattr (name : string) : py.t t np.ndarray :=
  λ o, match attrs o !! name with
       | Some a => (Returned a, o)
       | None => (Raised (AttributeError
                    ("'processed_data' object has no attribute '" +:+ name +:+ "'")), o)
       end.

Definition setattr (name : string) (a : np.ndarray) : py.t t unit :=
  modify (λ o, set_attrs (<[name := a]> (attrs o)) o).

(** Modelled from the spec: the base class's "attribute registration ... by
    name".  [add_attribute] attaches the array and lists its name once;
    [remove_attribute] detaches it and takes the name off the registry. *)
Definition add_attribute (name : string) (a : np.ndarray) : py.t t unit :=
  modify (λ o,
    set_attrs (<[name := a]> (attrs o))
      (set__data_attributes
         (if bool_decide (name ∈ _data_attributes o) then _data_attributes o
          else _data_attributes o ++ [name]) o)).

(** Modelled from the spec: see [add_attribute]. *)
Definition remove_attribute (name : string) : py.t t unit :=
  modify (λ o,
    set_attrs (delete name (attrs o))
      (set__data_attributes (filter (λ n, n ≠ name) (_data_attributes o)) o)).

(** The vertical axis is a 1-d float array; an axis attribute of another
    kind is outside the model. *)
Definition float1 (a : np.ndarray) : py.t t (list float) :=
  match a with
  | np.Float1 v => mret v
  | _ => raise (TypeError "the vertical axis is not a 1-d float array")
  end.

(** The array the methods take as the vertical axis: [range] when the
    instance has it, [depth] otherwise. *)
Definition vertical_axis (o : t) : option np.ndarray :=
  match attrs o !! "range" with
  | Some a => Some a
  | None => attrs o !! "depth"
  end.

(** The registered names that hold a 2-d array, in the order of the
    registry, and the rows held under a name. *)
Definition is_sample_array (o : t) (name : string) : bool :=
  match attrs o !! name with Some (np.Float2 _) => true | _ => false end.

Definition sample_names (o : t) : list string :=
  filter (λ name, is_sample_array o name = true) (_data_attributes o).

Definition sample_array (o : t) (name : string) : list (list float) :=
  match attrs o !! name with Some (np.Float2 rows) => rows | _ => [] end.

(** The primitives of the base class [sample_data] that the methods below
    call through [self] or [super()].  They are not among the sources.
    - [get_indices start_time end_time start_ping end_ping]: the rows in
      a ping-number or ping-time range;
    - [super_resize new_ping_dim new_sample_dim], [super_replace] and
      [super_insert] with the arguments [obj_to_insert], [ping_number],
      [ping_time], [insert_after], [index_array]: they read their arguments
      and mutate [self] only. *)
Record container : Type := {
  get_indices : option Z → option Z → option nat → option nat → t →
                result (list nat);
  super_resize : nat → nat → t → result t;
  super_replace : t → option nat → option Z → bool → option (list nat) → t →
                  result t;
  super_insert : t → option nat → option Z → bool → option (list nat) → t →
                 result t;
}.

Section methods.

Variable C : container.
Variable U : np.ufuncs.

(** [np.arange(new_sample_dim) * self.sample_thickness + vaxis[0]] *)
Definition regenerated_axis (new_sample_dim : nat) (thickness : float)
    (vaxis : np.ndarray) : result (list float) :=
  v0 ← np.first vaxis;
  match v0 with
  | np.Float1 v =>
      np.broadcast2 PrimFloat.add
        ((λ i, i * thickness) <$> np.arange new_sample_dim) v
  | _ => Raised (TypeError "ufunc cannot use operands with types float64 and datetime64")
  end.

(** [resize(self, new_ping_dim, new_sample_dim)].  The second assignment to
    the local name [vaxis] rebinds it; the array it then names is used no
    further. *)
Definition resize (new_ping_dim new_sample_dim : nat) : py.t t unit :=
  self ← get;
  vaxis ← (if hasattr "range" self then getattr "range" else getattr "depth");
  vaxis ← lift (regenerated_axis new_sample_dim (sample_thickness self) vaxis);
  self' ← lift (super_resize C new_ping_dim new_sample_dim self);
  put self';;
  ping_time ← getattr "ping_time";
  modify (set_n_pings (np.shape0 ping_time)).

(** [to_linear(self)] *)
Definition to_linear : py.t t unit :=
  self ← get;
  if decide (data_type self = "Sv") then
    Sv ← getattr "Sv";
    sv ← lift (np.map_float (λ x, np.power U 10 (x / 10)) Sv);
    add_attribute "sv" sv;;
    modify (set_data_type "sv");;
    remove_attribute "Sv"
  else if decide (data_type self = "Sp") then
    Sp ← getattr "Sp";
    sp ← lift (np.map_float (λ x, np.power U 10 (x / 10)) Sp);
    add_attribute "sp" sp;;
    modify (set_data_type "sp");;
    remove_attribute "Sp"
  else mret tt.

(** [to_log(self)] *)
Definition to_log : py.t t unit :=
  self ← get;
  if decide (data_type self = "sv") then
    sv ← getattr "sv";
    Sv ← lift (np.map_float (λ x, 10 * np.log10 U x) sv);
    add_attribute "Sv" Sv;;
    modify (set_data_type "Sv");;
    remove_attribute "sv"
  else if decide (data_type self = "sp") then
    sp ← getattr "sp";
    Sp ← lift (np.map_float (λ x, 10 * np.log10 U x) sp);
    add_attribute "Sp" Sp;;
    modify (set_data_type "Sp");;
    remove_attribute "sp"
  else mret tt.

(** [if (self.data_type[0] == 'S'): is_log = True; self.to_linear()] *)
Definition linear_if_log : py.t t bool :=
  self ← get;
  c ← lift (first_char (data_type self));
  if Ascii.eqb c (Ascii.ascii_of_nat 83) then to_linear;; mret true else mret false.

(** The assignment in the loops of [interpolate] and [shift_pings], for
    one ping of the array held under [attr_name]:
    [attr[ping,:] = np.interp(new_axis, xp ping, attr[ping,:old_samps],
                              left=np.nan, right=np.nan)]. *)
Definition interpolate_ping (new_axis : list float)
    (xp : nat → result (list float)) (old_samps : nat) (attr_name : string)
    (ping : nat) : py.t t unit :=
  attr ← getattr attr_name;
  match attr with
  | np.Float2 rows =>
      xp_ping ← lift (xp ping);
      fp ← lift (np.get_row rows ping old_samps);
      v ← lift (np.interp new_axis xp_ping fp nan nan);
      rows' ← lift (np.set_row rows ping v);
      setattr attr_name (np.Float2 rows')
  | _ => mret tt
  end.

(** The loop of [interpolate] and [shift_pings] over the 2-d arrays of the
    registry and over their pings.  An array is written row by row, so the
    rows before a row that raises stay interpolated. *)
Definition interpolate_attr (new_axis : list float)
    (xp : nat → result (list float)) (old_samps : nat) (attr_name : string)
    : py.t t unit :=
  attr ← getattr attr_name;
  if (np.ndim attr =? 2)%nat then
    self ← get;
    for_each (seq 0 (n_pings self))
      (interpolate_ping new_axis xp old_samps attr_name)
  else mret tt.

Definition interpolate_rows (new_axis : list float)
    (xp : nat → result (list float)) (old_samps : nat) : py.t t unit :=
  self ← get;
  for_each (_data_attributes self) (interpolate_attr new_axis xp old_samps).

(** The row that [interpolate] writes in the place of [row], and the array
    it leaves in the place of a registered array. *)
Definition interpolated (new_vaxis old_vaxis row : list float) : list float :=
  np.interp1 old_vaxis (take (length old_vaxis) row) nan nan <$> new_vaxis.

Definition resampled (new_vaxis old_vaxis : list float) (a : np.ndarray)
    : np.ndarray :=
  match a with
  | np.Float2 rows => np.Float2 (interpolated new_vaxis old_vaxis <$> rows)
  | _ => a
  end.

(** [interpolate(self, new_vaxis)] *)
Definition interpolate (new_vaxis : list float) : py.t t unit :=
  self ← get;
  old_vaxis ←
    (if hasattr "range" self then getattr "range" ≫= float1
     else if hasattr "depth" self then getattr "depth" ≫= float1
     else raise (AttributeError
                   "The data object has neither a range nor depth attribute."));
  same ←
    (if negb (length new_vaxis =? n_samples self)%nat
     then resize (n_pings self) (length new_vaxis);; mret false
     else close ← lift (np.isclose old_vaxis new_vaxis); mret (np.all close));
  if same : bool then mret tt
  else
    modify (set_sample_thickness (np.mean (np.ediff1d new_vaxis)));;
    is_log ← linear_if_log;
    interpolate_rows new_vaxis (λ _, Returned old_vaxis) (length old_vaxis);;
    if is_log : bool then to_log else mret tt.

(** The argument [vert_shift] of [shift_pings]: one shift for all pings, or
    one per ping. *)
Inductive shift : Type :=
| Scalar (x : float)
| Vector (v : list float).

Definition shift_values (s : shift) : list float :=
  match s with Scalar x => [x] | Vector v => v end.

(** [vert_shift[ping]] *)
Definition shift_at (s : shift) (ping : nat) : result float :=
  match s with
  | Scalar _ => Raised (TypeError "'float' object is not subscriptable")
  | Vector v =>
      match v !! ping with
      | Some x => Returned x
      | None => Raised (IndexError "index is out of bounds for axis 0")
      end
  end.

(** [shift_pings(self, vert_shift, to_depth=False)].  The last assignment,
    [vert_axis = new_axis], rebinds a local name. *)
Definition shift_pings (vert_shift : shift) (to_depth : bool) : py.t t unit :=
  min_shift ← lift (np.min (shift_values vert_shift));
  max_shift ← lift (np.max (shift_values vert_shift));
  let vert_ext := max_shift - min_shift in
  self ← get;
  '(vert_axis, to_depth) ←
    (if hasattr "range" self
     then a ← getattr "range" ≫= float1; mret (a, to_depth)
     else a ← getattr "depth" ≫= float1; mret (a, false));
  (if negb (vert_ext =? 0) then
     let new_samps :=
       np.uint U (np.ceil U (np.float32 U vert_ext / sample_thickness self)) in
     let new_sample_dim := (n_samples self + new_samps)%nat in
     resize (n_pings self) new_sample_dim
   else mret tt);;
  let old_samps := n_samples self in
  self' ← get;
  lowest ← lift (np.min vert_axis);
  let new_axis :=
    (λ i, i * sample_thickness self' + lowest + min_shift)
      <$> np.arange (n_samples self') in
  (if negb (vert_ext =? 0) then
     is_log ← linear_if_log;
     interpolate_rows new_axis
       (λ ping, s ← shift_at vert_shift ping;
                Returned ((λ x, x + s) <$> vert_axis))
       old_samps;;
     if is_log : bool then to_log else mret tt
   else mret tt);;
  if to_depth : bool then
    add_attribute "depth" (np.Float1 new_axis);;
    remove_attribute "range"
  else mret tt.

(** [_like(self, n_pings)]; the argument is [n] here.  The default it
    receives from [self.n_pings] is used no further. *)
Definition _like (n : option nat) : py.t t t :=
  self ← get;
  let n := match n with None => n_pings self | Some n => n end in
  let empty_obj := __init__ (channel_id self) (frequency self) (data_type self) in
  let empty_obj := set_sample_thickness (sample_thickness self) empty_obj in
  let empty_obj := set_sample_offset (sample_offset self) empty_obj in
  mret empty_obj.

(** [empty_like(self, n_pings=None, empty_times=False, channel_id=None)].
    The second call is
    [self._like(empty_obj, n_pings, np.nan, empty_times=False, channel_id=None)]:
    three positional arguments and two keywords for the method [_like]
    above, whose one parameter is [n_pings]. *)
Definition empty_like (n : option nat) (empty_times : bool)
    (channel : option string) : py.t t t :=
  empty_obj ← _like n;
  call "_like" ["n_pings"] 3 ["empty_times"; "channel_id"] (_like n).

(** [zeros_like(self, n_pings=None, empty_times=False, channel_id=None)]:
    the two calls of [empty_like], with [0.0] in the place of [np.nan]
    among the positional arguments of the second. *)
Definition zeros_like (n : option nat) (empty_times : bool)
    (channel : option string) : py.t t t :=
  empty_obj ← _like n;
  call "_like" ["n_pings"] 3 ["empty_times"; "channel_id"] (_like n).

(** [copy(self)].  The helper [_copy] of the base class is not among the
    sources; it is an argument here, a function of [pd_copy] and [self]
    that returns the copy. *)
Definition copy (_copy : t → t → result t) : py.t t t :=
  self ← get;
  let pd_copy := __init__ (channel_id self) (frequency self) (data_type self) in
  let pd_copy := set_sample_thickness (sample_thickness self) pd_copy in
  let pd_copy := set_sample_offset (sample_offset self) pd_copy in
  lift (_copy pd_copy self).

(** [attr[:] = v] on a 1-d array: [v] has the array's length, or one
    element that is repeated over it. *)
Definition assign_all (attr v : list float) : result (list float) :=
  if (length v =? length attr)%nat then Returned v
  else match v with
       | [x] => Returned (replicate (length attr) x)
       | _ => Raised (ValueError "could not broadcast input array")
       end.

(** [(np.arange(n_samples) - n) * sample_thickness + attr0] *)
Definition padded_axis (n_samples n : nat) (thickness attr0 : float)
    : list float :=
  (λ i, (i - np.float_of_nat n) * thickness + attr0) <$> np.arange n_samples.

(** The two assignments of [pad_top] on one row of a 2-d array:
    [attr[:, n:] = attr[:, 0:old_samples]], where the columns that are
    read must be as many as those that are written, or one; then
    [attr[:, 0:n] = np.nan]. *)
Definition pad_row (n old_samples : nat) (row : list float)
    : result (list float) :=
  let read := take old_samples row in
  let width := (length row - n)%nat in
  shifted ←
    (if (length read =? width)%nat then Returned read
     else match read with
          | [x] => Returned (replicate width x)
          | _ => Raised (ValueError "could not broadcast input array")
          end);
  Returned (replicate (n `min` length row) nan ++ shifted).

(** The loop of [pad_top] over the registry, for one name. *)
Definition pad_attr (n old_samples : nat) (attr_name : string) : py.t t unit :=
  attr ← getattr attr_name;
  match attr with
  | np.Float2 rows =>
      rows' ← lift (mapM (pad_row n old_samples) rows);
      setattr attr_name (np.Float2 rows')
  | _ => mret tt
  end.

(** [pad_top(self, n_samples)]; the argument is [n] here, a number of
    samples that is not negative.  The axis is assigned in place,
    [attr[:] = ...], with the [n_samples] and the first element that the
    resize left. *)
Definition pad_top (n : nat) : py.t t unit :=
  self ← get;
  let old_samples := n_samples self in
  resize (n_pings self) (n_samples self + n);;
  self ← get;
  let name := if hasattr "range" self then "range" else "depth" in
  attr ← getattr name ≫= float1;
  attr0 ←
    match attr with
    | x :: _ => mret x
    | [] => raise (IndexError "index 0 is out of bounds for axis 0 with size 0")
    end;
  attr' ← lift (assign_all attr
                  (padded_axis (n_samples self) n (sample_thickness self) attr0));
  setattr name (np.Float1 attr');;
  for_each (_data_attributes self) (pad_attr n old_samples).

(** The array that [pad_top] leaves in the place of a registered array
    whose rows have [old_samples + n] samples: every row of a 2-d array
    starts with [n] NaN, and its first [old_samples] samples follow. *)
Definition padded (n old_samples : nat) (a : np.ndarray) : np.ndarray :=
  match a with
  | np.Float2 rows =>
      np.Float2 ((λ row, replicate n nan ++ take old_samples row) <$> rows)
  | _ => a
  end.

(** [_check_mask(self, mask)] *)
Definition _check_mask (m : mask.t) : py.t t unit :=
  ping_time ← getattr "ping_time";
  if negb (np.array_equal ping_time (np.Time1 (mask.ping_time m))) then
    raise (ValueError "Mask ping times do not match the data ping times.")
  else
    self ← get;
    match mask.range m, mask.depth m with
    | Some r, _ =>
        if hasattr "range" self then
          range ← getattr "range";
          if negb (np.array_equal range (np.Float1 r)) then
            raise (ValueError "The mask's ranges do not match the data ranges.")
          else mret tt
        else raise (AttributeError
                      "You cannot compare a range based mask with depth based data.")
    | None, Some d =>
        if hasattr "depth" self then
          depth ← getattr "depth";
          if negb (np.array_equal depth (np.Float1 d)) then
            raise (ValueError "The mask's depths do not match the data depths.")
          else mret tt
        else raise (AttributeError
                      "You cannot compare a depth based mask with range based data.")
    | None, None => mret tt
    end.

(** [pd_object.name], read on an instance that is an argument *)
Definition attribute (name : string) (pd_object : t) : result np.ndarray :=
  (getattr name pd_object).1.

(** Modelled from the spec: the module [echolab2.processing.mask], which
    the file imports under the name [mask], is not among the sources.  It
    holds the class [mask]; it is taken to have no attribute named [depth],
    so that [mask.depth], read on the module, raises. *)
Definition mask_depth : result np.ndarray :=
  Raised (AttributeError
            "module 'echolab2.processing.mask' has no attribute 'depth'").

(** [_is_like_me(self, pd_object)].  In its last comparison the second
    array is [mask.depth]: [mask] is no local name of the method, so it is
    the imported module. *)
Definition _is_like_me (pd_object : t) : py.t t unit :=
  ping_time ← getattr "ping_time";
  other_time ← lift (attribute "ping_time" pd_object);
  if negb (np.array_equal ping_time other_time) then
    raise (ValueError
             "The processed_data object's ping times do not match our ping times.")
  else
    self ← get;
    if hasattr "range" pd_object then
      if hasattr "range" self then
        range ← getattr "range";
        other_range ← lift (attribute "range" pd_object);
        if negb (np.array_equal range other_range) then
          raise (ValueError
                   "The processed_data object's ranges do not match our ranges.")
        else mret tt
      else raise (AttributeError
                    "You cannot compare a range based object with a depth based object.")
    else
      if hasattr "depth" self then
        depth ← getattr "depth";
        other_depth ← lift mask_depth;
        if negb (np.array_equal depth other_depth) then
          raise (ValueError
                   "The processed_data object's depths do not match our depths.")
        else mret tt
      else raise (AttributeError
                    "You cannot compare a depth based object with a range based object.").

(** The keys of [__getitem__]: a mask, or a pair of slices. *)
Inductive key : Type :=
| KeyMask (m : mask.t)
| KeySlices (pings samples : np.slice).

(** What [__getitem__] returns: a numpy array, or a new instance. *)
Inductive item : Type :=
| Array (a : np.ndarray)
| Instance (p_data : t).

(** [attr[sample_mask]] on a 2-d array *)
Definition getitem_mask (rows : list (list float)) (sample_mask : mask.array)
    : result np.ndarray :=
  match sample_mask with
  | mask.Mask2 m => np.Float1 <$> np.getitem_mask2 rows m
  | mask.Mask1 m => np.Float2 <$> np.getitem_mask1 rows m
  end.

(** [attr.__getitem__(s)] on a 1-d array *)
Definition getitem_slice1 (s : np.slice) (a : np.ndarray) : result np.ndarray :=
  match a with
  | np.Float1 v => np.Float1 <$> np.getitem_slice s v
  | np.Time1 v => np.Time1 <$> np.getitem_slice s v
  | np.Float2 rows => np.Float2 <$> np.getitem_slice s rows
  end.

(** The loop of [__getitem__] over the registry, for a mask:
    [for attr_name in self._data_attributes: ...
       if (attr.ndim == 2): p_data = attr[sample_mask]]. *)
Definition select_samples (sample_mask : mask.array) (names : list string)
    (p_data : option np.ndarray) : py.t t (option np.ndarray) :=
  for_fold names p_data (λ attr_name p_data,
    attr ← getattr attr_name;
    match attr with
    | np.Float2 rows =>
        selected ← lift (getitem_mask rows sample_mask);
        mret (Some selected)
    | _ => mret p_data
    end).

(** [__getitem__(self, key)] *)
Definition __getitem__ (k : key) : py.t t item :=
  match k with
  | KeyMask m =>
      _check_mask m;;
      self ← get;
      sample_mask ←
        (if decide (lower (mask.type m) = "sample") then mret (mask.mask m)
         else
           (* sample_mask = np.full((n_pings, n_samples), False);
              sample_mask[key.mask, :] = True *)
           match mask.mask m with
           | mask.Mask1 v =>
               if (length v =? n_pings self)%nat
               then mret (mask.Mask2 (replicate (n_samples self) <$> v))
               else raise (IndexError "boolean index did not match indexed array")
           | mask.Mask2 _ => raise (IndexError "too many indices for array")
           end);
      p_data ← select_samples sample_mask (_data_attributes self) None;
      match p_data with
      | Some a => mret (Array a)
      | None => raise (UnboundLocalError
                         "local variable 'p_data' referenced before assignment")
      end
  | KeySlices pings samples =>
      self ← get;
      let p_data := __init__ (channel_id self) (frequency self) (data_type self) in
      let p_data := set_sample_thickness (sample_thickness self) p_data in
      let p_data := set__data_attributes (_data_attributes self) p_data in
      p_data ← for_fold (_data_attributes self) p_data (λ attr_name p_data,
        attr ← getattr attr_name;
        match attr with
        | np.Float2 rows =>
            rows' ← lift (np.getitem_slice pings rows);
            rows'' ← lift (mapM (np.getitem_slice samples) rows');
            mret (set_attrs (<[attr_name := np.Float2 rows'']> (attrs p_data)) p_data)
        | _ =>
            if (np.shape0 attr =? n_pings self)%nat then
              sliced_attr ← lift (getitem_slice1 pings attr);
              mret (set_n_pings (np.shape0 sliced_attr)
                      (set_attrs (<[attr_name := sliced_attr]> (attrs p_data)) p_data))
            else
              sliced_attr ← lift (getitem_slice1 samples attr);
              mret (set_n_samples (np.shape0 sliced_attr)
                      (set_attrs (<[attr_name := sliced_attr]> (attrs p_data)) p_data))
        end);
      mret (Instance
              (set_sample_offset
                 (sample_offset p_data + default 0%nat (np.start samples)) p_data))
  end.

(** What a slice whose step is not 0 leaves of a list, and what
    [__getitem__] with two slices leaves of a registered array of a grid
    of [n] pings. *)
Definition cut {A} (s : np.slice) (l : list A) : list A :=
  np.every (default 1%nat (np.step s))
    (drop (default 0%nat (np.start s))
       (take (default (length l) (np.stop s)) l))
    (length l).

Definition sliced (pings samples : np.slice) (n : nat) (a : np.ndarray)
    : np.ndarray :=
  match a with
  | np.Float2 rows => np.Float2 (cut samples <$> cut pings rows)
  | np.Float1 v =>
      if (length v =? n)%nat then np.Float1 (cut pings v)
      else np.Float1 (cut samples v)
  | np.Time1 v =>
      if (length v =? n)%nat then np.Time1 (cut pings v)
      else np.Time1 (cut samples v)
  end.

(** The instances live in a store; a variable holds a reference into it,
    so that a method called on [obj_to_insert] mutates the caller's
    object. *)
Definition deref (l : nat) : py.t (gmap nat t) t :=
  λ h, match h !! l with
       | Some o => (Returned o, h)
       | None => (Raised (NameError "dangling reference"), h)
       end.

(** A method run on the instance that [l] refers to. *)
Definition on {A} (l : nat) (m : py.t t A) : py.t (gmap nat t) A :=
  λ h, match h !! l with
       | Some o => let '(r, o') := m o in (r, <[l := o']> h)
       | None => (Raised (NameError "dangling reference"), h)
       end.

Definition new (o : t) : py.t (gmap nat t) nat :=
  λ h, let l := fresh (dom h) in (Returned l, <[l := o]> h).

(** [rows[0]] on the result of [get_indices] *)
Definition first_index (rows : list nat) : result nat :=
  match rows with
  | i :: _ => Returned i
  | [] => Raised (IndexError "index 0 is out of bounds for axis 0 with size 0")
  end.

(** [if hasattr(self, 'range'): this_vaxis = getattr(self, 'range')
     else: this_vaxis = getattr(self, 'depth')] *)
Definition this_vaxis : py.t t (list float) :=
  self ← get;
  (if hasattr "range" self then getattr "range" else getattr "depth") ≫= float1.

(** [replace(self, obj_to_insert, ping_number=None, ping_time=None,
    index_array=None)].  When the data types differ, the message of the
    [TypeError] is put together from [self.data_type.data_type], an
    attribute that a string does not have. *)
Definition replace (self : nat) (obj_to_insert : option nat)
    (ping_number : option nat) (ping_time : option Z)
    (index_array : option (list nat)) : py.t (gmap nat t) unit :=
  given ← lift (np.truth index_array);
  '(n_inserting, index_array) ←
    (if given : bool then
       let index_array := default [] index_array in
       mret (length index_array, index_array)
     else
       rows ← on self (λ me, lift (get_indices C ping_time ping_time
                                      ping_number ping_number me) me);
       idx ← lift (first_index rows);
       me ← deref self;
       let n_inserting := (n_pings me - idx)%nat in
       mret (n_inserting, (λ i, i + idx)%nat <$> seq 0 n_inserting));
  obj_to_insert ←
    match obj_to_insert with
    | Some o => mret o
    | None =>
        empty ← on self (empty_like (Some n_inserting) true None);
        o ← new empty;
        ping_times ← on self (getattr "ping_times");
        selected ← lift (np.getitem_indices ping_times index_array);
        on o (setattr "ping_times" selected);;
        mret o
    end;
  me ← deref self;
  other ← deref obj_to_insert;
  if decide (data_type me ≠ data_type other) then
    raise (AttributeError "'str' object has no attribute 'data_type'")
  else
    vaxis ← on self this_vaxis;
    on obj_to_insert (interpolate vaxis);;
    me ← deref self;
    other ← deref obj_to_insert;
    me' ← lift (super_replace C other None None true None me);
    on self (put me').

(** [insert(self, obj_to_insert, ping_number=None, ping_time=None,
    insert_after=True, index_array=None)] *)
Definition insert (self : nat) (obj_to_insert : option nat)
    (ping_number : option nat) (ping_time : option Z) (insert_after : bool)
    (index_array : option (list nat)) : py.t (gmap nat t) unit :=
  n_inserting ←
    match index_array with
    | None =>
        rows ← on self (λ me, lift (get_indices C ping_time ping_time
                                       ping_number ping_number me) me);
        in_idx ← lift (first_index rows);
        me ← deref self;
        mret (n_pings me - in_idx)%nat
    | Some index_array => mret (length index_array)
    end;
  obj_to_insert ←
    match obj_to_insert with
    | Some o => mret o
    | None =>
        empty ← on self (empty_like (Some n_inserting) true None);
        new empty
    end;
  me ← deref self;
  other ← deref obj_to_insert;
  if decide (data_type me ≠ data_type other) then
    raise (TypeError ("You cannot insert an object that contains " +:+
                      data_type other +:+ " data into an object that " +:+
                      "contains " +:+ data_type me +:+ " data."))
  else
    vaxis ← on self this_vaxis;
    on obj_to_insert (interpolate vaxis);;
    me ← deref self;
    other ← deref obj_to_insert;
    me' ← lift (super_insert C other ping_number ping_time insert_after
                  index_array me);
    on self (put me').

(** The value of an assignment with a mask: a number, or a 1-d array of
    numbers. *)
Inductive filling : Type :=
| Num (x : float)
| Arr (v : list float).

(** [row[m] = vals], element by element from the front of [vals] *)
Fixpoint put (row : list float) (m : list bool) (vals : list float)
    : list float :=
  match row, m with
  | x :: row', b :: m' =>
      if b then
        match vals with
        | y :: vals' => y :: put row' m' vals'
        | [] => x :: put row' m' []
        end
      else x :: put row' m' vals
  | _, _ => row
  end.

Fixpoint put_rows (rows : list (list float)) (mm : list (list bool))
    (vals : list float) : list (list float) :=
  match rows, mm with
  | row :: rows', m :: mm' =>
      put row m vals :: put_rows rows' mm' (drop (mask.count_true m) vals)
  | _, _ => rows
  end.

(** [attr[sample_mask] = value] on a 2-d array.  With a 2-d mask, which
    must have the shape of the array, the selected elements are written in
    row-major order; an array of values must have one value for each of
    them, or a single value.  With a 1-d mask, which must have one entry
    for each row, the selected rows are written; an array of values must
    fill a row, or hold a single value (the width is that of the first
    row: an array with no row has no width here). *)
Definition setitem_mask (rows : list (list float)) (sample_mask : mask.array)
    (value : filling) : result (list (list float)) :=
  match sample_mask with
  | mask.Mask2 mm =>
      if np.same_shape rows mm then
        let n := mask.count (mask.Mask2 mm) in
        vals ←
          match value with
          | Num x => Returned (replicate n x)
          | Arr v =>
              if (length v =? n)%nat then Returned v
              else match v with
                   | [x] => Returned (replicate n x)
                   | _ => Raised (ValueError
                            "NumPy boolean array indexing assignment cannot assign the input values to the output values where the mask is true")
                   end
          end;
        Returned (put_rows rows mm vals)
      else Raised (IndexError "boolean index did not match indexed array")
  | mask.Mask1 m =>
      if (length rows =? length m)%nat then
        match value, rows with
        | Num x, _ =>
            Returned (zip_with (λ row (b : bool),
                        if b then replicate (length row) x else row) rows m)
        | Arr v, [] => Returned []
        | Arr v, row0 :: _ =>
            row' ←
              (if (length v =? length row0)%nat then Returned v
               else match v with
                    | [x] => Returned (replicate (length row0) x)
                    | _ => Raised (ValueError "could not broadcast input array")
                    end);
            Returned (zip_with (λ row (b : bool), if b then row' else row) rows m)
        end
      else Raised (IndexError "boolean index did not match indexed array")
  end.

(** The 2-d mask that [__setitem__] applies: the array of a mask of type
    [sample]; for another mask,
    [sample_mask = np.full((self.n_pings, self.n_samples), False)] with
    [sample_mask[key.mask, :] = True]. *)
Definition sample_mask_of (m : mask.t) : py.t t mask.array :=
  self ← get;
  if decide (lower (mask.type m) = "sample") then mret (mask.mask m)
  else
    match mask.mask m with
    | mask.Mask1 v =>
        if (length v =? n_pings self)%nat
        then mret (mask.Mask2 (replicate (n_samples self) <$> v))
        else raise (IndexError "boolean index did not match indexed array")
    | mask.Mask2 _ => raise (IndexError "too many indices for array")
    end.

(** The loop of [__setitem__] over the registry, for one name:
    [if (attr.ndim == 2): attr[sample_mask] = value]. *)
Definition assign_attr (sample_mask : mask.array) (value : filling)
    (attr_name : string) : py.t t unit :=
  attr ← getattr attr_name;
  match attr with
  | np.Float2 rows =>
      rows' ← lift (setitem_mask rows sample_mask value);
      setattr attr_name (np.Float2 rows')
  | _ => mret tt
  end.

(** Python 3's [round] of the quotient [p / s] of two integers: the nearest
    integer, and the even one of two that are as near.  The source rounds
    the float [p / float(s)], which rounds as the quotient does while [p]
    and [s] are below [2^26]. *)
Definition round_quotient (p : Z) (s : positive) : Z :=
  let q := (p / Z.pos s)%Z in
  match (2 * (p mod Z.pos s) ?= Z.pos s)%Z with
  | Lt => q
  | Gt => (q + 1)%Z
  | Eq => if Z.even q then q else (q + 1)%Z
  end.

(** [(np.arange(int(round((key.stop - key.start) / float(key.step))))
      * key.step) + key.start]
    for a slice with bounds that are not negative and a step that is
    positive; a bound that is left out is [None]. *)
Definition replace_idx (start stop : option nat) (step : option positive)
    : result (list nat) :=
  match stop, start, step with
  | Some hi, Some lo, Some k =>
      let n := Z.to_nat (round_quotient (Z.of_nat hi - Z.of_nat lo) k) in
      Returned ((λ i, i * Pos.to_nat k + lo)%nat <$> seq 0 n)
  | Some _, Some _, None =>
      Raised (TypeError
                "float() argument must be a string or a real number, not 'NoneType'")
  | Some _, None, _ =>
      Raised (TypeError "unsupported operand type(s) for -: 'int' and 'NoneType'")
  | None, Some _, _ =>
      Raised (TypeError "unsupported operand type(s) for -: 'NoneType' and 'int'")
  | None, None, _ =>
      Raised (TypeError
                "unsupported operand type(s) for -: 'NoneType' and 'NoneType'")
  end.

(** The two forms of [self[key] = value]: with a mask, the value is a
    number or an array of numbers; with a slice, it is an instance (a
    reference into the store) or [None]. *)
Inductive assignment : Type :=
| AssignMask (key : mask.t) (value : filling)
| AssignSlice (start stop : option nat) (step : option positive)
    (value : option nat).

(** [__setitem__(self, key, value)] *)
Definition __setitem__ (self : nat) (a : assignment)
    : py.t (gmap nat t) unit :=
  match a with
  | AssignMask key value =>
      on self (_check_mask key;;
               sample_mask ← sample_mask_of key;
               me ← get;
               for_each (_data_attributes me) (assign_attr sample_mask value))
  | AssignSlice start stop step value =>
      idx ← lift (replace_idx start stop step);
      replace self value None None (Some idx)
  end.

(** The array that the assignment of the number [x] with the 2-d mask [mm]
    leaves in the place of a registered array: [x] where the mask is
    [True], the old element elsewhere. *)
Definition masked_fill (x : float) (mm : list (list bool)) (a : np.ndarray)
    : np.ndarray :=
  match a with
  | np.Float2 rows =>
      np.Float2 (zip_with (zip_with (λ v (b : bool), if b then x else v)) rows mm)
  | _ => a
  end.

(** The other operand of a comparison. *)
Inductive operand : Type :=
| Number (x : float)
| Other (pd_object : t).

(** [__lt__], [__ge__], [__le__], [__eq__] and [__ne__]: the body of each
    is [pass], so each returns [None].  ([__gt__] ends in an assignment
    that is cut short, [compare_mask.mask[:] = self.]; it has no
    translation.) *)
Definition __lt__ (other : operand) : py.t t (option mask.t) := mret None.
Definition __ge__ (other : operand) : py.t t (option mask.t) := mret None.
Definition __le__ (other : operand) : py.t t (option mask.t) := mret None.
Definition __eq__ (other : operand) : py.t t (option mask.t) := mret None.
Definition __ne__ (other : operand) : py.t t (option mask.t) := mret None.

End methods.

End processed_data.

(** ** A grid container

    The base class [sample_data] is not among the sources.  The
    specification describes it as the owner of "the named 2D/1D attribute
    registry, raw dimension counters, and raw row insert/resize primitives"
    and of the "row-index resolution from a ping-number or ping-time
    range".  The definitions of this module are one implementation of that
    description, on which the methods can be run. *)

Module grid_container.

Import py.

(** [l] cut or padded with [x] to the length [n] *)
Definition fit {A} (n : nat) (x : A) (l : list A) : list A :=
  take n l ++ replicate (n - length l) x.

(** Modelled from the spec: the "raw resize" of one registered array, which
    is missing with the base class.  A 2-d array is cut or padded with NaN
    (an absent sample) to the new shape; a 1-d array that is as long as the
    ping axis, or else as the sample axis, follows that axis. *)
Definition resize_array (old_pings old_samples new_pings new_samples : nat)
    (a : np.ndarray) : np.ndarray :=
  match a with
  | np.Float2 rows =>
      np.Float2 (fit new_pings (replicate new_samples nan)
                   (fit new_samples nan <$> rows))
  | np.Float1 v =>
      if (length v =? old_pings)%nat then np.Float1 (fit new_pings nan v)
      else if (length v =? old_samples)%nat then np.Float1 (fit new_samples nan v)
      else a
  | np.Time1 v =>
      if (length v =? old_pings)%nat then np.Time1 (fit new_pings 0%Z v) else a
  end.

Definition registered (self : processed_data.t) (name : string) : bool :=
  bool_decide (name ∈ processed_data._data_attributes self).

(** Modelled from the spec: [sample_data.resize], the "raw dimensional
    resize" of every registered array; it sets [n_samples] (the source says
    so where it calls it) and leaves [n_pings] to the caller. *)
Definition resize (new_ping_dim new_sample_dim : nat) (self : processed_data.t)
    : result processed_data.t :=
  Returned
    (processed_data.set_n_samples new_sample_dim
       (processed_data.set_attrs
          (map_imap (λ name a,
             Some (if registered self name
                   then resize_array (processed_data.n_pings self)
                          (processed_data.n_samples self)
                          new_ping_dim new_sample_dim a
                   else a))
             (processed_data.attrs self))
          self)).

Definition in_range {A} (le : A → A → bool) (lo hi : option A) (x : A) : bool :=
  match lo with Some l => le l x | None => true end
  && match hi with Some h => le x h | None => true end.

(** Modelled from the spec: [sample_data.get_indices], the "row-index
    resolution from a ping-number or ping-time range": the rows whose ping
    number (from 1) and ping time lie within the bounds that are given. *)
Definition get_indices (start_time end_time : option Z)
    (start_ping end_ping : option nat) (self : processed_data.t)
    : result (list nat) :=
  match processed_data.attrs self !! "ping_time" with
  | Some (np.Time1 ticks) =>
      Returned
        (fst <$> filter (λ p, in_range Nat.leb start_ping end_ping (S p.1) = true
                              ∧ in_range Z.leb start_time end_time p.2 = true)
                   (zip (seq 0 (length ticks)) ticks))
  | _ => Raised (AttributeError "'processed_data' object has no attribute 'ping_time'")
  end.

(** Modelled from the spec: the rows a replace writes, "an explicit index
    array, or a ping-number/ping-time lookup yielding a starting row, with
    the replacement count equal to [min(source.n_pings, n_pings - start)]". *)
Definition target_rows (obj_to_insert self : processed_data.t)
    (ping_number : option nat) (ping_time : option Z)
    (index_array : option (list nat)) : result (list nat) :=
  match index_array, ping_number, ping_time with
  | Some idx, _, _ => Returned idx
  | None, None, None =>
      Raised (ValueError "a ping number, a ping time or an index array is needed")
  | None, _, _ =>
      rows ← get_indices ping_time ping_time ping_number ping_number self;
      start ← processed_data.first_index rows;
      Returned (seq start (processed_data.n_pings obj_to_insert
                             `min` (processed_data.n_pings self - start)))
  end.

(** [dst[idx[k]] = src[k]] for every [k] *)
Definition overwrite {A} (idx : list nat) (src dst : list A) : list A :=
  foldl (λ acc p, match src !! p.1 with
                  | Some x => <[p.2 := x]> acc
                  | None => acc
                  end)
        dst (zip (seq 0 (length idx)) idx).

Definition merge_array {A} (f : list A → np.ndarray) (n_pings : nat)
    (edit : list A → list A → list A) (src dst : list A) : np.ndarray :=
  if (length dst =? n_pings)%nat then f (edit src dst) else f dst.

Definition merge (edit : ∀ A, list A → list A → list A)
    (obj_to_insert self : processed_data.t) : gmap string np.ndarray :=
  map_imap (λ name a,
    Some (match registered self name, a,
                processed_data.attrs obj_to_insert !! name with
          | true, np.Float2 dst, Some (np.Float2 src) =>
              np.Float2 (edit _ src dst)
          | true, np.Float1 dst, Some (np.Float1 src) =>
              merge_array np.Float1 (processed_data.n_pings self) (edit _) src dst
          | true, np.Time1 dst, Some (np.Time1 src) =>
              merge_array np.Time1 (processed_data.n_pings self) (edit _) src dst
          | _, _, _ => a
          end))
    (processed_data.attrs self).

(** Modelled from the spec: [sample_data.replace], which "overwrites
    existing pings in place without changing [n_pings]": row [k] of every
    array of the source goes to the [k]-th target row of the array that the
    grid registers under the same name. *)
Definition replace (obj_to_insert : processed_data.t)
    (ping_number : option nat) (ping_time : option Z) (insert_after : bool)
    (index_array : option (list nat)) (self : processed_data.t)
    : result processed_data.t :=
  idx ← target_rows obj_to_insert self ping_number ping_time index_array;
  Returned (processed_data.set_attrs
              (merge (λ A, overwrite idx) obj_to_insert self) self).

(** Modelled from the spec: the row before which an insert splices the
    source's rows, "immediately after (true) or at (false) the resolved
    row"; the first row of an index array. *)
Definition insertion_row (self : processed_data.t)
    (ping_number : option nat) (ping_time : option Z) (insert_after : bool)
    (index_array : option (list nat)) : result nat :=
  match index_array, ping_number, ping_time with
  | Some idx, _, _ => processed_data.first_index idx
  | None, None, None =>
      Raised (ValueError "a ping number, a ping time or an index array is needed")
  | None, _, _ =>
      rows ← get_indices ping_time ping_time ping_number ping_number self;
      start ← processed_data.first_index rows;
      Returned (if insert_after then S start else start)
  end.

Definition splice {A} (row : nat) (src dst : list A) : list A :=
  take row dst ++ src ++ drop row dst.

(** Modelled from the spec: [sample_data.insert], which "inserts
    [source]'s rows, shifting existing rows at/after the insertion point
    later, growing [n_pings] by the inserted count". *)
Definition insert (obj_to_insert : processed_data.t)
    (ping_number : option nat) (ping_time : option Z) (insert_after : bool)
    (index_array : option (list nat)) (self : processed_data.t)
    : result processed_data.t :=
  row ← insertion_row self ping_number ping_time insert_after index_array;
  Returned (processed_data.set_n_pings
              (processed_data.n_pings self + processed_data.n_pings obj_to_insert)
              (processed_data.set_attrs
                 (merge (λ A, splice row) obj_to_insert self) self)).

(** Modelled from the spec: the base class, as the methods of
    [processed_data] call it. *)
Definition it : processed_data.container :=
  {| processed_data.get_indices := get_indices;
     processed_data.super_resize := resize;
     processed_data.super_replace := replace;
     processed_data.super_insert := insert |}.

End grid_container.

(** ** The ufuncs in software

    An implementation of [np.ufuncs] on binary64 floats, for running the
    methods on concrete grids: rounding to float32 and to an integer are
    exact; [exp] and [ln] are computed from their series and agree with the
    C library to a few units in the last place, not bit for bit; the
    conversion of a negative number or a NaN to [uint], which C leaves
    undefined, gives 0. *)

Module float_ufuncs.

#[local] Open Scope float_scope.

Definition two52 : float := 0x1p52.

(** The nearest integer (ties to even). *)
Definition rint (x : float) : float :=
  if abs x <? two52
  then (if x <? 0 then (x - two52) + two52 else (x + two52) - two52)
  else x.

Definition ceil (x : float) : float :=
  let r := rint x in if r <? x then r + 1 else r.

Definition uint (x : float) : nat :=
  match Prim2SF x with
  | S754_finite false m e =>
      Z.to_nat (if (0 <=? e)%Z then Z.pos m * 2 ^ e else Z.pos m / 2 ^ (- e))%Z
  | _ => 0%nat
  end.

Definition float32 (x : float) : float :=
  match Prim2SF x with
  | S754_finite s m e =>
      match binary_round 24 128 s m e with
      | S754_finite s' m' e' => SF2Prim (binary_round 53 1024 s' m' e')
      | y => SF2Prim y
      end
  | _ => x
  end.

Definition ln2 : float := 0x1.62e42fefa39efp-1.
Definition ln10 : float := 0x1.26bb1bbb55516p+1.

(** [acc + term * r / k + term * r^2 / (k (k+1)) + ...], [n] terms *)
Fixpoint series (n : nat) (r k term acc : float) : float :=
  match n with
  | O => acc
  | S n' => let term' := term * r / k in series n' r (k + 1) term' (acc + term')
  end.

Fixpoint scale2 (n : nat) (up : bool) (x : float) : float :=
  match n with
  | O => x
  | S n' => scale2 n' up (if up then x * 2 else x / 2)
  end.

(** [e^y = 2^k e^r] with [k] the integer nearest to [y / ln 2] *)
Definition exp (y : float) : float :=
  if is_nan y then y
  else if 710 <? y then infinity
  else if y <? -746 then 0
  else
    let k := rint (y / ln2) in
    let r := y - k * ln2 in
    scale2 (uint (abs k)) (0 <? k) (series 20 r 1 1 1).

(** Halley's iteration for [e^z = x] *)
Fixpoint ln_from (n : nat) (x z : float) : float :=
  match n with
  | O => z
  | S n' => let e := exp z in ln_from n' x (z + 2 * (x - e) / (x + e))
  end.

Definition ln (x : float) : float :=
  if is_nan x then x
  else if x <? 0 then nan
  else if x =? 0 then neg_infinity
  else if x =? infinity then x
  else ln_from 400 x 0.

Definition power (x y : float) : float :=
  if y =? 0 then 1 else exp (y * ln x).

Definition log10 (x : float) : float := ln x / ln10.

Definition it : np.ufuncs :=
  {| np.power := power; np.log10 := log10; np.ceil := ceil;
     np.float32 := float32; np.uint := uint |}.

End float_ufuncs.

(** ** Example grids *)

Module examples.

Import processed_data.
#[local] Open Scope float_scope.

(** A grid with a range axis, ping times and one sample array, registered
    in this order. *)
Definition grid (data_type : string) (thickness : float) (range : list float)
    (times : list Z) (name : string) (samples : list (list float)) : t :=
  {| channel_id := ["GPT 120 kHz"]; frequency := 120000;
     data_type := data_type;
     sample_thickness := thickness; sample_offset := 0;
     n_pings := length times; n_samples := length range;
     _data_attributes := ["range"; "ping_time"; name];
     attrs := <[name := np.Float2 samples]>
                (<["ping_time" := np.Time1 times]>
                   (<["range" := np.Float1 range]> ∅)) |}.

(** The grid of [examples/echogram_plotting_test.py], with 2 pings of 3
    samples for its 100 pings of 1000: ranges half a metre apart, a sample
    array attached under the name [data] with every other sample set to 10,
    and [sample_thickness] as the constructor left it. *)
Definition fake_Sv : t :=
  grid "Sv" 0 [0; 0.5; 1] [0; 1000]%Z "data" [[0; 10; 0]; [0; 10; 0]].

(** Linear data, 2 pings of 3 samples one metre thick. *)
Definition power3 : t :=
  grid "power" 1 [0; 1; 2] [0; 1000]%Z "power" [[1; 2; 3]; [4; 5; 6]].

(** The same pings on an axis of two samples. *)
Definition power2 : t :=
  grid "power" 1 [0; 1] [0; 1000]%Z "power" [[1; 2]; [4; 5]].

(** The same grid on an axis that starts half a metre lower. *)
Definition power3_low : t :=
  grid "power" 1 [0.5; 1.5; 2.5] [0; 1000]%Z "power" [[1; 2; 3]; [4; 5; 6]].

(** Samples half a metre thick, and what is left of that grid when its
    arrays are cut to two samples and its [sample_thickness] is set to 1. *)
Definition power3_fine : t :=
  grid "power" 0.5 [0; 0.5; 1] [0; 1000]%Z "power" [[1; 2; 3]; [4; 5; 6]].

Definition power3_cut : t :=
  grid "power" 1 [0; 0.5] [0; 1000]%Z "power" [[1; 2]; [4; 5]].

(** Volume backscatter in decibels. *)
Definition Sv3 : t :=
  grid "Sv" 1 [0; 1; 2] [0; 1000]%Z "Sv" [[0; -10; -20]; [-30; -40; -50]].

Definition sv3 : t :=
  grid "sv" 1 [0; 1; 2] [0; 1000]%Z "sv" [[1; 2; 3]; [4; 5; 6]].

(** A sample mask over [power3]. *)
Definition checks : mask.t :=
  {| mask.type := "sample";
     mask.mask := mask.Mask2 [[true; false; true]; [false; true; false]];
     mask.ping_time := [0; 1000]%Z;
     mask.range := Some [0; 1; 2];
     mask.depth := None |}.

(** A store with a target at reference 0 and a source at reference 1. *)
Definition store (target source : t) : gmap nat t :=
  <[1%nat := source]> (<[0%nat := target]> ∅).

(** [power3] after the container has grown it to 5 samples. *)
Definition power3_grown : t :=
  grid "power" 1 [0; 1; 2; nan; nan] [0; 1000]%Z "power"
    [[1; 2; 3; nan; nan]; [4; 5; 6; nan; nan]].

(** [power3_fine] after the container has cut it to 2 samples. *)
Definition power3_fine_cut : t :=
  grid "power" 0.5 [0; 0.5] [0; 1000]%Z "power" [[1; 2]; [4; 5]].

(** A grid that has its two axes and no sample array. *)
Definition axes_only : t :=
  {| channel_id := ["GPT 120 kHz"]; frequency := 120000;
     data_type := "power";
     sample_thickness := 1; sample_offset := 0;
     n_pings := 2; n_samples := 3;
     _data_attributes := ["range"; "ping_time"];
     attrs := <["ping_time" := np.Time1 [0; 1000]%Z]>
                (<["range" := np.Float1 [0; 1; 2]]> ∅) |}.

(** A ping mask over [power3] that selects the first ping. *)
Definition first_ping : mask.t :=
  {| mask.type := "ping";
     mask.mask := mask.Mask1 [true; false];
     mask.ping_time := [0; 1000]%Z;
     mask.range := None;
     mask.depth := None |}.

End examples.

(** ** Running the monad *)

Section run.

Context {S A B : Type}.
Implicit Types (m : py.t S A) (k : A → py.t S B).

Lemma bind_returned m k s a s' r :
  m s = (py.Returned a, s') → k a s' = r → (m ≫= k) s = r.
Proof. intros Hm <-. unfold mbind, py_bind, py.bind. by rewrite Hm. Qed.

Lemma bind_raised m k s e s' :
  m s = (py.Raised e, s') → (m ≫= k) s = (py.Raised e, s').
Proof. intros Hm. unfold mbind, py_bind, py.bind. by rewrite Hm. Qed.

Lemma bind_run m k s a s' :
  m s = (py.Returned a, s') → (m ≫= k) s = k a s'.
Proof. intros H. by eapply bind_returned. Qed.

End run.

Section invariants.

Context {S : Type} (P : S → Prop).

Lemma preserves_bind {A B} (m : py.t S A) (k : A → py.t S B) :
  py.preserves P m → (∀ a, py.preserves P (k a)) → py.preserves P (m ≫= k).
Proof.
  intros Hm Hk s Hs. unfold mbind, py_bind, py.bind.
  specialize (Hm s Hs). destruct (m s) as [[e|a] s']; [done|]. by apply Hk.
Qed.

Lemma preserves_ret {A} (a : A) : py.preserves P (mret a).
Proof. by intros s. Qed.

Lemma preserves_lift {A} (r : py.result A) : py.preserves P (py.lift r).
Proof. by intros s. Qed.

Lemma preserves_get : py.preserves P py.get.
Proof. by intros s. Qed.

Lemma preserves_for_each {A} (l : list A) (body : A → py.t S unit) :
  (∀ x, py.preserves P (body x)) → py.preserves P (py.for_each l body).
Proof.
  intros Hbody. induction l as [|x l IH]; [by intros s|].
  by apply (preserves_bind (body x) (λ _, py.for_each l body)).
Qed.

End invariants.

Section loops.

Context {S A : Type}.

Lemma for_each_app (l1 l2 : list A) (body : A → py.t S unit) s s' :
  py.for_each l1 body s = (py.Returned tt, s') →
  py.for_each (l1 ++ l2) body s = py.for_each l2 body s'.
Proof.
  revert s. induction l1 as [|x l1 IH]; intros s H; simpl in *.
  - by injection H as ->.
  - unfold py.bind in *. destruct (body x s) as [[e|[]] s1]; [done|].
    by apply IH.
Qed.

End loops.

(** One statement of a method: it returned, and the rest runs. *)
Ltac step := eapply bind_returned; [try reflexivity|].

Section store.

Import processed_data.
Implicit Types (h : gmap nat t) (o : t).

Lemma deref_lookup l h o : h !! l = Some o → deref l h = (py.Returned o, h).
Proof. intros Hl. unfold deref. by rewrite Hl. Qed.

Lemma on_lookup {A} l (m : py.t t A) h o r o' :
  h !! l = Some o → m o = (r, o') → on l m h = (r, <[l := o']> h).
Proof. intros Hl Hm. unfold on. by rewrite Hl, Hm. Qed.

(** A method that leaves the instance as it was leaves the store as it
    was. *)
Lemma on_unchanged {A} l (m : py.t t A) h o r :
  h !! l = Some o → m o = (r, o) → on l m h = (r, h).
Proof.
  intros Hl Hm. rewrite (on_lookup l m h o r o Hl Hm).
  by rewrite insert_id.
Qed.

End store.

(** ** What [replace] and [insert] do before they merge *)

Section replace_and_insert.

Import processed_data.
Variable C : container.
Variable U : np.ufuncs.
Implicit Types (h : gmap nat t) (g s : t).

Lemma empty_like_raises n empty_times channel g :
  empty_like n empty_times channel g
  = (py.Raised (py.TypeError
       "_like() got an unexpected keyword argument 'empty_times'"), g).
Proof. reflexivity. Qed.

(** C2.  [replace] with an index array of two or more rows does not get
    past its first test, [if (index_array):]: numpy refuses the truth value
    of such an array, the call raises [ValueError], and no row of any grid
    in the store is written, whatever the source, the other arguments and
    the base class. *)
Theorem replace_index_array_truth_value self obj_to_insert ping_number
    ping_time i j rest h :
  replace C U self obj_to_insert ping_number ping_time
    (Some (i :: j :: rest)) h
  = (py.Raised (py.ValueError
       "The truth value of an array with more than one element is ambiguous. Use a.any() or a.all()"),
     h).
Proof. reflexivity. Qed.

(** C9.  [replace] with the source omitted and one row [i] (not 0) as the
    index array: [empty_like] calls [_like] with arguments that method does
    not take, so the call raises [TypeError]; the grid keeps every sample
    and no sample becomes NaN. *)
Theorem replace_without_source_raises self g i h :
  i ≠ 0 → h !! self = Some g →
  replace C U self None None None (Some [i]) h
  = (py.Raised (py.TypeError
       "_like() got an unexpected keyword argument 'empty_times'"), h).
Proof.
  intros Hi Hg. destruct i as [|i]; [done|].
  unfold replace.
  step. cbn [negb Nat.eqb].
  step.
  do 2 apply bind_raised.
  by apply on_unchanged with g.
Qed.

(** C5.  A source whose data type differs from the target's: [replace]
    (one row [i], not 0, as the index array) raises [AttributeError] while
    it builds the message of its [TypeError]; [insert] (any index array)
    raises the [TypeError], with its message.  Both leave the store as it
    was. *)
Theorem data_type_mismatch self src g s i idx insert_after h :
  i ≠ 0 → h !! self = Some g → h !! src = Some s →
  data_type g ≠ data_type s →
  replace C U self (Some src) None None (Some [i]) h
  = (py.Raised (py.AttributeError
       "'str' object has no attribute 'data_type'"), h)
  ∧ insert C U self (Some src) None None insert_after (Some idx) h
    = (py.Raised (py.TypeError
         ("You cannot insert an object that contains " +:+ data_type s +:+
          " data into an object that contains " +:+ data_type g +:+
          " data.")), h).
Proof.
  intros Hi Hg Hs Hne. split.
  - destruct i as [|i]; [done|].
    unfold replace.
    step. cbn [negb Nat.eqb].
    do 2 step.
    step; [by apply deref_lookup|].
    step; [by apply deref_lookup|].
    by rewrite decide_True.
  - unfold insert.
    do 2 step.
    step; [by apply deref_lookup|].
    step; [by apply deref_lookup|].
    by rewrite decide_True.
Qed.

Lemma read_vertical_axis g axis :
  vertical_axis g = Some axis →
  (if hasattr "range" g then getattr "range" else getattr "depth") g
  = (py.Returned axis, g).
Proof.
  unfold vertical_axis, hasattr, getattr. intros Haxis.
  destruct (attrs g !! "range") as [a|] eqn:Hr.
  - rewrite bool_decide_eq_true_2 by eauto. rewrite Hr. by simplify_eq.
  - rewrite bool_decide_eq_false_2 by (by intros [? ?]). by rewrite Haxis.
Qed.

Lemma this_vaxis_reads g axis :
  vertical_axis g = Some (np.Float1 axis) →
  this_vaxis g = (py.Returned axis, g).
Proof.
  intros Haxis. unfold this_vaxis. step.
  eapply bind_returned; [by apply read_vertical_axis|done].
Qed.

(** X3.  [insert] and [replace] with a source of the target's data type,
    held under another reference: the source in the store is put through
    [interpolate] with the target's axis, and it is this source -- mutated,
    in the caller's store -- that the base class merges; if [interpolate]
    raises, the source stays as [interpolate] left it.  [replace] hands the
    base class no ping number, ping time or index array. *)
Theorem merge_interpolates_the_source self src g s axis ping_number ping_time
    insert_after idx i h :
  h !! self = Some g → h !! src = Some s → self ≠ src →
  data_type g = data_type s →
  vertical_axis g = Some (np.Float1 axis) →
  i ≠ 0 →
  insert C U self (Some src) ping_number ping_time insert_after (Some idx) h
  = match interpolate C U axis s with
    | (py.Raised e, s') => (py.Raised e, <[src := s']> h)
    | (py.Returned _, s') =>
        match super_insert C s' ping_number ping_time insert_after
                (Some idx) g with
        | py.Raised e => (py.Raised e, <[src := s']> h)
        | py.Returned g' => (py.Returned tt, <[self := g']> (<[src := s']> h))
        end
    end
  ∧ replace C U self (Some src) ping_number ping_time (Some [i]) h
    = match interpolate C U axis s with
      | (py.Raised e, s') => (py.Raised e, <[src := s']> h)
      | (py.Returned _, s') =>
          match super_replace C s' None None true None g with
          | py.Raised e => (py.Raised e, <[src := s']> h)
          | py.Returned g' => (py.Returned tt, <[self := g']> (<[src := s']> h))
          end
      end.
Proof.
  intros Hg Hs Hne Hdt Haxis Hi. split.
  - unfold insert.
    do 2 step.
    step; [by apply deref_lookup|].
    step; [by apply deref_lookup|].
    rewrite decide_False by (by intros ?).
    step; [by eapply on_unchanged, this_vaxis_reads|].
    destruct (interpolate C U axis s) as [[e|[]] s'] eqn:Hrun.
    { apply bind_raised. by eapply on_lookup. }
    step; [by eapply on_lookup|].
    step; [by apply deref_lookup; rewrite lookup_insert_ne|].
    step; [by apply deref_lookup; rewrite lookup_insert_eq|].
    unfold py.lift.
    destruct (super_insert _ _ _ _ _ _ _) as [e|g']; [by apply bind_raised|].
    step. eapply on_lookup; [by rewrite lookup_insert_ne|done].
  - destruct i as [|i]; [done|].
    unfold replace.
    step. cbn [negb Nat.eqb].
    do 2 step.
    step; [by apply deref_lookup|].
    step; [by apply deref_lookup|].
    rewrite decide_False by (by intros ?).
    step; [by eapply on_unchanged, this_vaxis_reads|].
    destruct (interpolate C U axis s) as [[e|[]] s'] eqn:Hrun.
    { apply bind_raised. by eapply on_lookup. }
    step; [by eapply on_lookup|].
    step; [by apply deref_lookup; rewrite lookup_insert_ne|].
    step; [by apply deref_lookup; rewrite lookup_insert_eq|].
    unfold py.lift.
    destruct (super_replace _ _ _ _ _ _ _) as [e|g']; [by apply bind_raised|].
    step. eapply on_lookup; [by rewrite lookup_insert_ne|done].
Qed.

(** X6.  [replace] with the source omitted never returns: whatever the target,
    the arguments and the base class, it raises and the store is what it
    was. *)
Theorem replace_without_source_never_returns self ping_number ping_time
    index_array h :
  ∃ e, replace C U self None ping_number ping_time index_array h
       = (py.Raised e, h).
Proof.
  unfold replace.
  destruct (np.truth index_array) as [e|given] eqn:Htruth.
  { exists e. by apply bind_raised. }
  assert (∀ n, ∃ e, on self (empty_like (Some n) true None) h
                    = (py.Raised e, h)) as Hempty.
  { intros n. unfold on. destruct (h !! self) as [g|] eqn:Hg; [|by eexists].
    eexists. rewrite empty_like_raises. by rewrite insert_id. }
  destruct given.
  - destruct (Hempty (length (default [] index_array))) as [e He].
    exists e.
    step.
    step. do 2 apply bind_raised. done.
  - destruct (h !! self) as [g|] eqn:Hg.
    + destruct (get_indices C ping_time ping_time ping_number ping_number g)
        as [e|rows] eqn:Hrows.
      * exists e.
        step.
        do 2 apply bind_raised.
        eapply on_unchanged; [done|]. unfold py.lift. by rewrite Hrows.
      * destruct rows as [|idx rows].
        -- eexists.
           step.
           apply bind_raised.
           step; [eapply on_unchanged; [done|]; unfold py.lift; by rewrite Hrows|].
           by apply bind_raised.
        -- destruct (Hempty (n_pings g - idx)) as [e He]. exists e.
           step.
           eapply bind_returned.
           { step; [eapply on_unchanged; [done|]; unfold py.lift; by rewrite Hrows|].
             step. step; [by apply deref_lookup|]. done. }
           by do 2 apply bind_raised.
    + eexists.
      step.
      do 2 apply bind_raised. unfold on. by rewrite Hg.
Qed.

End replace_and_insert.

(** C8.  The comparison operators [<], [>=], [<=], [==] and [!=] return
    [None] for every grid and every operand, a number or a grid: they build
    no mask.  They leave the grid as it was. *)
Theorem comparisons_return_None (g : processed_data.t)
    (other : processed_data.operand) :
  processed_data.__lt__ other g = (py.Returned None, g)
  ∧ processed_data.__ge__ other g = (py.Returned None, g)
  ∧ processed_data.__le__ other g = (py.Returned None, g)
  ∧ processed_data.__eq__ other g = (py.Returned None, g)
  ∧ processed_data.__ne__ other g = (py.Returned None, g).
Proof. done. Qed.

Lemma replace_without_source_raises_on_power3 :
  processed_data.replace grid_container.it float_ufuncs.it 0 None None None
    (Some [1]) (examples.store examples.power3 examples.power2)
  = (py.Raised (py.TypeError
       "_like() got an unexpected keyword argument 'empty_times'"),
     examples.store examples.power3 examples.power2).
Proof.
  apply (replace_without_source_raises grid_container.it float_ufuncs.it
           0 examples.power3 1); [lia | reflexivity].
Defined.

Lemma data_type_mismatch_Sv_sv :
  processed_data.replace grid_container.it float_ufuncs.it 0 (Some 1) None None
    (Some [1]) (examples.store examples.Sv3 examples.sv3)
  = (py.Raised (py.AttributeError
       "'str' object has no attribute 'data_type'"),
     examples.store examples.Sv3 examples.sv3)
  ∧ processed_data.insert grid_container.it float_ufuncs.it 0 (Some 1) None
      None true (Some [1]) (examples.store examples.Sv3 examples.sv3)
    = (py.Raised (py.TypeError
         "You cannot insert an object that contains sv data into an object that contains Sv data."),
       examples.store examples.Sv3 examples.sv3).
Proof.
  apply (data_type_mismatch grid_container.it float_ufuncs.it 0 1
           examples.Sv3 examples.sv3 1 [1] true);
    [lia | reflexivity | reflexivity | discriminate].
Defined.

(** ** The vertical axis *)

Section vertical_axis.

Import processed_data.
Variable C : container.
Variable U : np.ufuncs.
Implicit Types (g : t) (axis : list float).

Lemma isclose_all axis new_vaxis :
  Forall2 (λ a b, np.isclose1 a b = true) axis new_vaxis →
  ∃ close, np.isclose axis new_vaxis = py.Returned close ∧ np.all close = true.
Proof.
  intros H. exists (zip_with np.isclose1 axis new_vaxis). split.
  - unfold np.isclose, np.broadcast2.
    by rewrite (Forall2_length _ _ _ H), Nat.eqb_refl.
  - unfold np.all. induction H as [|a b l k Hab _ IH]; [done|].
    simpl. by rewrite Hab.
Qed.

Lemma read_axis g axis :
  vertical_axis g = Some (np.Float1 axis) →
  (if hasattr "range" g then getattr "range" ≫= float1
   else if hasattr "depth" g then getattr "depth" ≫= float1
   else py.raise (py.AttributeError
                   "The data object has neither a range nor depth attribute.")) g
  = (py.Returned axis, g).
Proof.
  unfold vertical_axis, hasattr, getattr. intros H.
  destruct (attrs g !! "range") as [a|] eqn:Hr.
  - rewrite bool_decide_eq_true_2 by eauto. simplify_eq.
    eapply bind_returned; [by rewrite Hr|done].
  - rewrite bool_decide_eq_false_2 by (intros [? ?]; done).
    rewrite H. rewrite bool_decide_eq_true_2 by eauto.
    eapply bind_returned; [by rewrite H|done].
Qed.

(** C3.  A grid whose vertical axis (a 1-d float array) has [n_samples]
    elements, and a new axis of the same length whose elements are close to
    the axis's, each to each, by [np.isclose]: [interpolate] returns and the
    grid is what it was, in every attribute -- samples, axis and
    [sample_thickness] among them. *)
Theorem interpolate_same_axis g axis new_vaxis :
  vertical_axis g = Some (np.Float1 axis) →
  length axis = n_samples g →
  Forall2 (λ a b, np.isclose1 a b = true) axis new_vaxis →
  interpolate C U new_vaxis g = (py.Returned tt, g).
Proof.
  intros Haxis Hlen Hclose.
  destruct (isclose_all _ _ Hclose) as (close & Hc & Hall).
  unfold interpolate.
  step.
  step; [by apply read_axis|].
  rewrite <- (Forall2_length _ _ _ Hclose), Hlen, Nat.eqb_refl. cbn [negb].
  eapply bind_returned.
  { eapply bind_returned; [by unfold py.lift; rewrite Hc|reflexivity]. }
  by rewrite Hall.
Qed.

Lemma fmin_zero a b : np.zero a → np.zero b → np.fmin a b = a.
Proof. intros [-> | ->] [-> | ->]; reflexivity. Qed.

Lemma fmax_zero a b : np.zero a → np.zero b → np.fmax a b = a.
Proof. intros [-> | ->] [-> | ->]; reflexivity. Qed.

Lemma min_zeros x l : Forall np.zero (x :: l) → np.min (x :: l) = py.Returned x.
Proof.
  intros H. apply Forall_cons in H as [Hx Hl]. simpl. f_equal.
  induction Hl as [|y l Hy _ IH]; [done|]. simpl. by rewrite fmin_zero.
Qed.

Lemma max_zeros x l : Forall np.zero (x :: l) → np.max (x :: l) = py.Returned x.
Proof.
  intros H. apply Forall_cons in H as [Hx Hl]. simpl. f_equal.
  induction Hl as [|y l Hy _ IH]; [done|]. simpl. by rewrite fmax_zero.
Qed.

Lemma no_extent x : np.zero x → (x - x =? 0)%float = true.
Proof. intros [-> | ->]; reflexivity. Qed.

(** C6.  [shift_pings] with a vector of zeros: the grid keeps [n_samples]
    and every attribute other than the axis, the sample arrays among them;
    and when [to_depth] is not asked for (the default), or the grid has no
    [range], the grid is what it was, axis included, and the call returns
    if there is a shift and the axis has an element. *)
Theorem shift_pings_all_zero g vs to_depth :
  Forall np.zero vs →
  let run := shift_pings C U (Vector vs) to_depth g in
  n_samples run.2 = n_samples g
  ∧ (∀ name, name ≠ "range" → name ≠ "depth" →
       attrs run.2 !! name = attrs g !! name)
  ∧ (to_depth = false ∨ hasattr "range" g = false →
       run.2 = g
       ∧ ∀ axis, vs ≠ [] → vertical_axis g = Some (np.Float1 axis) →
           axis ≠ [] → run.1 = py.Returned tt).
Proof.
  intros Hz. unfold shift_pings.
  destruct vs as [|x l]; [done|].
  assert (np.zero x) as Hx by (by apply Forall_cons in Hz as [? _]).
  cbv [mbind py_bind py.bind mret py_ret py.ret py.lift py.get py.raise
       py.modify getattr float1 hasattr shift_values vertical_axis].
  rewrite (min_zeros _ _ Hz), (max_zeros _ _ Hz), (no_extent _ Hx).
  cbn [negb].
  destruct (attrs g !! "range") as [[v| |]|] eqn:Hr; simpl;
    rewrite ?Hr; simpl; try done.
  - destruct v as [|v0 v]; simpl.
    { split_and!; try done. intros _. split; [done|]. by intros ? _ [= <-]. }
    destruct to_depth; simpl; [|done].
    split_and!; [done| |by intros [?|?]].
    intros name Hnr Hnd.
    by rewrite lookup_delete_ne, lookup_insert_ne.
  - destruct (attrs g !! "depth") as [[v| |]|] eqn:Hd; simpl; try done.
    destruct v as [|v0 v]; simpl; [|done].
    split_and!; try done. intros _. split; [done|]. by intros ? _ [= <-].
Qed.

(** X1.  [resize] with any base class: when the base class's resize returns,
    the grid is the one it left, with [n_pings] set to the length of its
    [ping_time].  The axis that the method regenerates,
    [arange(new_sample_dim) * sample_thickness + axis[0]], has no part in
    the result. *)
Theorem resize_is_the_containers g new_ping_dim new_sample_dim vaxis
    regenerated g1 ping_time :
  vertical_axis g = Some vaxis →
  regenerated_axis new_sample_dim (sample_thickness g) vaxis
  = py.Returned regenerated →
  super_resize C new_ping_dim new_sample_dim g = py.Returned g1 →
  attrs g1 !! "ping_time" = Some ping_time →
  resize C new_ping_dim new_sample_dim g
  = (py.Returned tt, set_n_pings (np.shape0 ping_time) g1).
Proof.
  intros Haxis Hregen Hsuper Hpt. unfold resize.
  step.
  step; [by apply read_vertical_axis|].
  step; [by unfold py.lift; rewrite Hregen|].
  step; [by unfold py.lift; rewrite Hsuper|].
  step.
  step; [by unfold getattr; rewrite Hpt|].
  done.
Qed.

Lemma getattr_preserves (P : t → Prop) name : py.preserves P (getattr name).
Proof. intros o Ho. unfold getattr. by destruct (_ !! _). Qed.

Lemma to_linear_thickness v :
  py.preserves (λ o, sample_thickness o = v) (to_linear U).
Proof.
  unfold to_linear. apply preserves_bind; [apply preserves_get|]. intros self.
  repeat case_decide; try apply preserves_ret;
    (apply preserves_bind; [apply getattr_preserves|]; intros a;
     apply preserves_bind; [apply preserves_lift|]; intros b; by intros o).
Qed.

Lemma to_log_thickness v :
  py.preserves (λ o, sample_thickness o = v) (to_log U).
Proof.
  unfold to_log. apply preserves_bind; [apply preserves_get|]. intros self.
  repeat case_decide; try apply preserves_ret;
    (apply preserves_bind; [apply getattr_preserves|]; intros a;
     apply preserves_bind; [apply preserves_lift|]; intros b; by intros o).
Qed.

Lemma linear_if_log_thickness v :
  py.preserves (λ o, sample_thickness o = v) (linear_if_log U).
Proof.
  unfold linear_if_log. apply preserves_bind; [apply preserves_get|]. intros self.
  apply preserves_bind; [apply preserves_lift|]. intros c.
  destruct (Ascii.eqb _ _); [|apply preserves_ret].
  apply preserves_bind; [apply to_linear_thickness|]. intros _.
  apply preserves_ret.
Qed.

Lemma interpolate_rows_thickness v new_axis xp old_samps :
  py.preserves (λ o, sample_thickness o = v)
    (interpolate_rows new_axis xp old_samps).
Proof.
  unfold interpolate_rows. apply preserves_bind; [apply preserves_get|].
  intros self. apply preserves_for_each. intros name.
  unfold interpolate_attr.
  apply preserves_bind; [apply getattr_preserves|]. intros a.
  destruct (np.ndim a =? 2)%nat; [|apply preserves_ret].
  apply preserves_bind; [apply preserves_get|]. intros self'.
  apply preserves_for_each. intros ping.
  unfold interpolate_ping.
  apply preserves_bind; [apply getattr_preserves|].
  intros [| rows |]; try apply preserves_ret.
  repeat (apply preserves_bind; [apply preserves_lift|]; intros ?).
  by intros o.
Qed.

(** What [interpolate] does once it is past its test of the two axes. *)
Lemma interpolate_tail_thickness new_vaxis old_vaxis s :
  sample_thickness
    ((py.modify (set_sample_thickness (np.mean (np.ediff1d new_vaxis)));;
      is_log ← linear_if_log U;
      interpolate_rows new_vaxis (λ _, py.Returned old_vaxis) (length old_vaxis);;
      if is_log : bool then to_log U else mret tt) s).2
  = np.mean (np.ediff1d new_vaxis).
Proof.
  rewrite (bind_run _ _ _ _ _ (eq_refl : py.modify _ s = (py.Returned tt, _))).
  apply (preserves_bind
           (λ o, sample_thickness o = np.mean (np.ediff1d new_vaxis)));
    [apply linear_if_log_thickness| |done].
  intros is_log.
  apply preserves_bind; [apply interpolate_rows_thickness|]. intros _.
  destruct is_log; [apply to_log_thickness|apply preserves_ret].
Qed.

(** X4.  [interpolate] to an axis that is not the grid's (another length, with
    the resize returning; or the same length and some element not close):
    whether the call then returns or raises, the grid's [sample_thickness]
    is the mean step of the new axis. *)
Theorem interpolate_recomputes_thickness new_vaxis old_vaxis s :
  vertical_axis s = Some (np.Float1 old_vaxis) →
  (length new_vaxis ≠ n_samples s
   ∧ (resize C (n_pings s) (length new_vaxis) s).1 = py.Returned tt)
  ∨ (∃ close, length new_vaxis = n_samples s
       ∧ np.isclose old_vaxis new_vaxis = py.Returned close
       ∧ np.all close = false) →
  sample_thickness (interpolate C U new_vaxis s).2
  = np.mean (np.ediff1d new_vaxis).
Proof.
  intros Haxis Hdiffer. unfold interpolate.
  rewrite (bind_run _ _ _ _ _ (eq_refl : py.get s = (py.Returned s, s))).
  rewrite (bind_run _ _ _ _ _ (read_axis s old_vaxis Haxis)).
  destruct Hdiffer as [[Hlen Hresize]|(close & Hlen & Hclose & Hall)].
  - apply Nat.eqb_neq in Hlen. rewrite Hlen. cbn [negb].
    destruct (resize C (n_pings s) (length new_vaxis) s) as [r s1] eqn:Hr.
    simpl in Hresize. subst r.
    erewrite (bind_run _ _ s); [|by eapply bind_returned].
    apply interpolate_tail_thickness.
  - apply Nat.eqb_eq in Hlen. rewrite Hlen. cbn [negb].
    erewrite (bind_run _ _ s);
      [|eapply bind_returned; [by unfold py.lift; rewrite Hclose|done]].
    rewrite Hall. apply interpolate_tail_thickness.
Qed.

(** X2.  [to_linear] on decibel data ([Sv] or [Sp], held under that name) puts
    [10 ** (x / 10)] for every sample [x] under the linear name, sets
    [data_type] to it and drops the decibel array; [to_log] on the result
    puts [10 * log10(y)] for every sample [y] under the decibel name, sets
    [data_type] back and drops the linear array.  The other attributes are
    what they were. *)
Theorem to_linear_then_to_log g log lin rows :
  (log, lin) = ("Sv", "sv") ∨ (log, lin) = ("Sp", "sp") →
  data_type g = log → attrs g !! log = Some (np.Float2 rows) →
  ∃ g' g'',
    to_linear U g = (py.Returned tt, g')
    ∧ data_type g' = lin
    ∧ attrs g' !! lin
      = Some (np.Float2 (map (map (λ x, np.power U 10 (x / 10)%float)) rows))
    ∧ attrs g' !! log = None
    ∧ to_log U g' = (py.Returned tt, g'')
    ∧ data_type g'' = log
    ∧ attrs g'' !! log
      = Some (np.Float2
                (map (map (λ x, (10 * np.log10 U (np.power U 10 (x / 10)))%float))
                   rows))
    ∧ attrs g'' !! lin = None
    ∧ ∀ name, name ≠ log → name ≠ lin → attrs g'' !! name = attrs g !! name.
Proof.
  intros Hnames Hdt Ha.
  assert (log ≠ lin) as Hne by (by destruct Hnames as [[= -> ->]|[= -> ->]]).
  eexists _, _. split_and!.
  - unfold to_linear. step.
    destruct Hnames as [[= -> ->]|[= -> ->]].
    + rewrite decide_True by done.
      step; [by unfold getattr; rewrite Ha|]. by step.
    + rewrite decide_False by (by rewrite Hdt).
      rewrite decide_True by done.
      step; [by unfold getattr; rewrite Ha|]. by step.
  - done.
  - simpl. by rewrite lookup_delete_ne, lookup_insert_eq.
  - simpl. by rewrite lookup_delete_eq.
  - unfold to_log. step. simpl.
    destruct Hnames as [[= -> ->]|[= -> ->]].
    + rewrite decide_True by done.
      step; [by unfold getattr; simpl;
               rewrite lookup_delete_ne, lookup_insert_eq|].
      by step.
    + rewrite decide_False by done.
      rewrite decide_True by done.
      step; [by unfold getattr; simpl;
               rewrite lookup_delete_ne, lookup_insert_eq|].
      by step.
  - done.
  - simpl. rewrite lookup_delete_ne, lookup_insert_eq by done.
    rewrite map_map. do 2 f_equal. apply map_ext. intros row.
    by rewrite map_map.
  - simpl. by rewrite lookup_delete_eq.
  - intros name Hn1 Hn2. simpl.
    by rewrite lookup_delete_ne, lookup_insert_ne, lookup_delete_ne,
      lookup_insert_ne.
Qed.

End vertical_axis.


(** ** Interpolation *)

Section interpolation.

Import processed_data.
Variable C : container.
Variable U : np.ufuncs.
Implicit Types (s : t) (rows : list (list float)).

Lemma set_attrs_id s : set_attrs (attrs s) s = s.
Proof. by destruct s. Qed.

Lemma set_attrs_twice v w s : set_attrs v (set_attrs w s) = set_attrs v s.
Proof. done. Qed.

Lemma interpolated_row rows n row new old :
  rows !! n = Some row →
  <[n := interpolated new old row]>
    ((interpolated new old <$> take n rows) ++ drop n rows)
  = (interpolated new old <$> take (S n) rows) ++ drop (S n) rows.
Proof.
  intros Hrow.
  assert (n < length rows) as Hn by (by eapply lookup_lt_Some).
  rewrite insert_app_r_alt by (rewrite length_fmap, length_take; lia).
  rewrite length_fmap, length_take, Nat.min_l, Nat.sub_diag by lia.
  erewrite (drop_S rows), (take_S_r rows) by done.
  simpl. by rewrite fmap_app, <- app_assoc.
Qed.

Lemma interpolate_pings_run new old name rows s n :
  attrs s !! name = Some (np.Float2 rows) →
  n ≤ length rows →
  Forall (λ row, length row = length new) rows →
  0 < length old ≤ length new →
  py.for_each (seq 0 n)
    (interpolate_ping new (λ _, py.Returned old) (length old) name) s
  = (py.Returned tt,
     set_attrs
       (<[name := np.Float2 ((interpolated new old <$> take n rows)
                               ++ drop n rows)]> (attrs s)) s).
Proof.
  intros Hname Hn Hrows Hlen. induction n as [|n IH].
  - simpl. rewrite insert_id by done. by rewrite set_attrs_id.
  - rewrite seq_S. simpl. rewrite (for_each_app _ _ _ _ _ (IH ltac:(lia))).
    destruct (lookup_lt_is_Some_2 rows n) as [row Hrow]; [lia|].
    assert (length row = length new) as Hrowlen
      by (eapply Forall_forall in Hrows; [done|by eapply list_elem_of_lookup_2]).
    cbn [py.for_each]. eapply bind_returned; [|reflexivity].
    unfold interpolate_ping.
    step; [by unfold getattr; simpl; rewrite lookup_insert_eq|].
    step.
    assert (((interpolated new old <$> take n rows) ++ drop n rows) !! n = Some row) as Hget.
    { rewrite lookup_app_r by (rewrite length_fmap, length_take; lia).
      rewrite length_fmap, length_take, Nat.min_l, Nat.sub_diag by lia.
      by rewrite lookup_drop, Nat.add_0_r. }
    step; [by unfold py.lift, np.get_row; rewrite Hget|].
    step.
    { unfold py.lift, np.interp.
      replace (length old =? 0) with false by (symmetry; apply Nat.eqb_neq; lia).
      rewrite length_take, Nat.min_l, Nat.eqb_refl by lia. reflexivity. }
    step.
    { unfold py.lift, np.set_row. rewrite Hget.
      rewrite length_fmap, Hrowlen, Nat.eqb_refl. reflexivity. }
    unfold setattr, py.modify. cbn [attrs set_attrs].
    rewrite insert_insert_eq, set_attrs_twice.
    by rewrite <- (interpolated_row _ _ _ new old Hrow).
Qed.

Lemma interpolate_attr_run new old name a s :
  attrs s !! name = Some a →
  (∀ rows, a = np.Float2 rows →
     length rows = n_pings s ∧ Forall (λ row, length row = length new) rows) →
  0 < length old ≤ length new →
  interpolate_attr new (λ _, py.Returned old) (length old) name s
  = (py.Returned tt, set_attrs (<[name := resampled new old a]> (attrs s)) s).
Proof.
  intros Hname Hshape Hlen. unfold interpolate_attr.
  step; [by unfold getattr; rewrite Hname|].
  destruct a as [v|rows|ticks]; simpl.
  - by rewrite insert_id, set_attrs_id.
  - destruct (Hshape rows eq_refl) as [Hn Hrows].
    step.
    rewrite (interpolate_pings_run new old name rows s (n_pings s)) by (done || lia).
    by rewrite <- Hn, take_ge, drop_ge, app_nil_r by lia.
  - by rewrite insert_id, set_attrs_id.
Qed.

Lemma interpolate_names_run new old names s :
  NoDup names →
  Forall (λ name, ∃ a, attrs s !! name = Some a
            ∧ ∀ rows, a = np.Float2 rows →
                length rows = n_pings s
                ∧ Forall (λ row, length row = length new) rows) names →
  0 < length old ≤ length new →
  ∃ s', py.for_each names
          (interpolate_attr new (λ _, py.Returned old) (length old)) s
        = (py.Returned tt, s')
    ∧ s' = set_attrs (attrs s') s
    ∧ ∀ name, attrs s' !! name
        = if bool_decide (name ∈ names)
          then resampled new old <$> attrs s !! name
          else attrs s !! name.
Proof.
  intros Hnodup Hwf Hlen. revert s Hwf.
  induction names as [|name names IH]; intros s Hwf.
  { exists s. split_and!; [done|by rewrite set_attrs_id|done]. }
  apply NoDup_cons in Hnodup as [Hnotin Hnodup].
  apply Forall_cons in Hwf as [(a & Ha & Hshape) Hwf].
  set (s1 := set_attrs (<[name := resampled new old a]> (attrs s)) s).
  destruct (IH Hnodup s1) as (s' & Hrun & Hs' & Hlookup).
  { apply Forall_forall. intros x Hx.
    rewrite Forall_forall in Hwf. destruct (Hwf x Hx) as (b & Hb & Hbshape).
    exists b. split; [|done]. subst s1. simpl.
    rewrite lookup_insert_ne; [done|]. by intros ->. }
  exists s'. split_and!.
  - cbn [py.for_each]. eapply bind_returned; [by apply interpolate_attr_run|].
    done.
  - by rewrite Hs' at 1.
  - intros x. rewrite Hlookup. subst s1. simpl.
    destruct (decide (x = name)) as [->|Hne].
    + rewrite bool_decide_eq_false_2 by done.
      rewrite bool_decide_eq_true_2 by apply list_elem_of_here.
      by rewrite lookup_insert_eq, Ha.
    + rewrite lookup_insert_ne by done.
      apply (f_equal (λ b : bool, if b then _ else _)).
      apply bool_decide_ext. rewrite elem_of_cons.
      split; [by right|by intros [?|?]].
Qed.

Lemma interpolate_rows_run new old s :
  NoDup (_data_attributes s) →
  Forall (λ name, ∃ a, attrs s !! name = Some a
            ∧ ∀ rows, a = np.Float2 rows →
                length rows = n_pings s
                ∧ Forall (λ row, length row = length new) rows)
    (_data_attributes s) →
  0 < length old ≤ length new →
  ∃ s', interpolate_rows new (λ _, py.Returned old) (length old) s
        = (py.Returned tt, s')
    ∧ s' = set_attrs (attrs s') s
    ∧ ∀ name, attrs s' !! name
        = if bool_decide (name ∈ _data_attributes s)
          then resampled new old <$> attrs s !! name
          else attrs s !! name.
Proof.
  intros Hnodup Hwf Hlen.
  destruct (interpolate_names_run new old _ s Hnodup Hwf Hlen)
    as (s' & Hrun & Hs' & Hlookup).
  exists s'. split_and!; [|done..].
  unfold interpolate_rows. by step.
Qed.

(** X5.  [interpolate] on linear data (the data type does not start with [S]),
    to an axis of the grid's length of which some element is not close to
    the grid's; the registry names each array once, and its 2-d arrays have
    [n_pings] rows of [n_samples] samples.  The call returns; every row of
    every registered 2-d array is now [np.interp] of the new axis over the
    old axis and the old row, [sample_thickness] is the mean step of the new
    axis, and everything else is what it was -- the axis array among it,
    which still holds the old axis. *)
Theorem interpolate_resamples new old s c :
  vertical_axis s = Some (np.Float1 old) →
  length new = n_samples s → length old = length new →
  np.all (zip_with np.isclose1 old new) = false →
  py.first_char (data_type s) = py.Returned c →
  Ascii.eqb c (Ascii.ascii_of_nat 83) = false →
  NoDup (_data_attributes s) →
  Forall (λ name, ∃ a, attrs s !! name = Some a
            ∧ ∀ rows, a = np.Float2 rows →
                length rows = n_pings s
                ∧ Forall (λ row, length row = length new) rows)
    (_data_attributes s) →
  ∃ s', interpolate C U new s = (py.Returned tt, s')
    ∧ sample_thickness s' = np.mean (np.ediff1d new)
    ∧ (∀ name, attrs s' !! name
         = if bool_decide (name ∈ _data_attributes s)
           then resampled new old <$> attrs s !! name
           else attrs s !! name)
    ∧ s' = set_attrs (attrs s')
             (set_sample_thickness (np.mean (np.ediff1d new)) s).
Proof.
  intros Haxis Hn Hlen Hfar Hc Hlinear Hnodup Hwf.
  assert (0 < length old) as Hpos.
  { destruct old; [|simpl; lia]. by destruct new. }
  set (s2 := set_sample_thickness (np.mean (np.ediff1d new)) s).
  destruct (interpolate_rows_run new old s2 Hnodup Hwf) as (s' & Hrun & Hs' & Hlookup);
    [lia|].
  exists s'. split_and!; [|by rewrite Hs'|done|done].
  unfold interpolate.
  step.
  step; [by apply read_axis|].
  rewrite Hn, Nat.eqb_refl. cbn [negb].
  eapply bind_returned.
  { eapply bind_returned; [|reflexivity].
    unfold py.lift, np.isclose, np.broadcast2. by rewrite Hlen, Nat.eqb_refl. }
  rewrite Hfar.
  step. fold s2.
  eapply bind_returned.
  { unfold linear_if_log. step. step; [by unfold py.lift; simpl; rewrite Hc|].
    by rewrite Hlinear. }
  by step.
Qed.

End interpolation.

(** ** Reading with a mask *)

Section masks.

Import processed_data.
Implicit Types (g : t) (mm : list (list bool)).

Lemma select_length {A} (row : list A) (m : list bool) :
  length row = length m →
  length (np.select row m) = mask.count_true m.
Proof.
  revert m. induction row as [|x row IH]; intros [|b m] Hlen; try done.
  simpl in *. destruct b; simpl; [f_equal|]; apply IH; lia.
Qed.

Lemma selected_length (rows : list (list float)) mm :
  np.same_shape rows mm = true →
  length (concat (zip_with np.select rows mm)) = mask.count (mask.Mask2 mm).
Proof.
  unfold np.same_shape, mask.count. rewrite andb_true_iff.
  intros [Hn Hrows]. apply Nat.eqb_eq in Hn.
  revert mm Hn Hrows. induction rows as [|row rows IH]; intros [|m mm] Hn Hrows;
    try done.
  simpl in *. apply andb_true_iff in Hrows as [Hrow Hrows].
  apply Nat.eqb_eq in Hrow.
  rewrite length_app, (select_length _ _ Hrow). f_equal. apply IH; [lia|done].
Qed.

(** The loop leaves in [p_data] the selection from the last 2-d array of
    the names it goes through. *)
Lemma select_samples_last g mm names p_data :
  Forall (λ name, is_Some (attrs g !! name)) names →
  Forall (λ name, np.same_shape (sample_array g name) mm = true)
    (filter (λ name, is_sample_array g name = true) names) →
  select_samples (mask.Mask2 mm) names p_data g
  = (py.Returned
       (match last (filter (λ name, is_sample_array g name = true) names) with
        | Some name =>
            Some (np.Float1 (concat (zip_with np.select (sample_array g name) mm)))
        | None => p_data
        end), g).
Proof.
  unfold select_samples. revert p_data.
  induction names as [|name names IH]; intros p_data Hreg Hshape; [done|].
  apply Forall_cons in Hreg as [[a Ha] Hreg].
  cbn [py.for_fold].
  assert (getattr name g = (py.Returned a, g)) as Hget
    by (unfold getattr; by rewrite Ha).
  destruct a as [v|rows|ticks].
  - rewrite filter_cons_False in Hshape |- *
      by (unfold is_sample_array; by rewrite Ha).
    eapply bind_returned; [by eapply bind_returned|]. by apply IH.
  - rewrite filter_cons_True in Hshape |- *
      by (unfold is_sample_array; by rewrite Ha).
    apply Forall_cons in Hshape as [Hrows Hshape].
    unfold sample_array at 1 in Hrows. rewrite Ha in Hrows.
    eapply bind_returned.
    { eapply bind_returned; [done|].
      eapply bind_returned; [|done].
      unfold py.lift, getitem_mask, np.getitem_mask2. by rewrite Hrows. }
    rewrite IH by done. rewrite last_cons.
    destruct (last _); [done|].
    unfold sample_array. by rewrite Ha.
  - rewrite filter_cons_False in Hshape |- *
      by (unfold is_sample_array; by rewrite Ha).
    eapply bind_returned; [by eapply bind_returned|]. by apply IH.
Qed.

(** C7.  A grid whose registered names all have their array and whose 2-d
    arrays have the shape of [mm], of which there is at least one; a mask
    of type [sample] (in any case of the letters) with the array [mm] that
    passes [_check_mask].  Reading the grid with the mask returns a numpy
    array, not an instance: the 1-d array of the elements of a sample array
    that the mask selects, row after row and from left to right in a row.
    It has as many elements as the mask has [True] entries.  The array that
    is read is the one registered last. *)
Theorem getitem_sample_mask g m mm :
  _check_mask m g = (py.Returned tt, g) →
  py.lower (mask.type m) = "sample" →
  mask.mask m = mask.Mask2 mm →
  Forall (λ name, is_Some (attrs g !! name)) (_data_attributes g) →
  Forall (λ name, np.same_shape (sample_array g name) mm = true)
    (sample_names g) →
  sample_names g ≠ [] →
  ∃ name,
    last (sample_names g) = Some name
    ∧ __getitem__ (KeyMask m) g
      = (py.Returned
           (Array (np.Float1
                     (concat (zip_with np.select (sample_array g name) mm)))),
         g)
    ∧ length (concat (zip_with np.select (sample_array g name) mm))
      = mask.count (mask.Mask2 mm).
Proof.
  intros Hcheck Htype Hmask Hreg Hshape Hsome.
  destruct (last (sample_names g)) as [name|] eqn:Hlast;
    [|by apply last_None in Hlast].
  exists name. split_and!; [done| |].
  - unfold __getitem__.
    step; [done|].
    step.
    rewrite decide_True by done.
    step. rewrite Hmask.
    step; [by apply select_samples_last|].
    fold (sample_names g). by rewrite Hlast.
  - apply selected_length.
    eapply Forall_forall in Hshape; [done|].
    by apply last_Some_elem_of in Hlast.
Qed.

End masks.

(** ** Evaluations *)

(** C1.  [resize] on the grid of the plotting example, with its own
    dimensions, and on a grid that grows from 3 to 5 samples.  The method
    computes the regenerated axis ([0, 0, 0] for a thickness of 0;
    [0, 1, 2, 3, 4]) and drops it: the grid keeps the axis the base class's
    resize left, whose steps are 0.5 for a [sample_thickness] of 0 in the
    first grid, and which ends in the container's padding in the second. *)
Theorem resize_keeps_the_containers_axis :
  let run := processed_data.resize grid_container.it 2 3 examples.fake_Sv in
  let grown := processed_data.resize grid_container.it 2 5 examples.power3 in
  run.1 = py.Returned tt
  ∧ processed_data.regenerated_axis 3
      (processed_data.sample_thickness examples.fake_Sv)
      (np.Float1 [0; 0.5; 1]%float)
    = py.Returned [0; 0; 0]%float
  ∧ processed_data.attrs run.2 !! "range" = Some (np.Float1 [0; 0.5; 1]%float)
  ∧ np.ediff1d [0; 0.5; 1]%float = [0.5; 0.5]%float
  ∧ processed_data.sample_thickness run.2 = 0%float
  ∧ grown.1 = py.Returned tt
  ∧ processed_data.regenerated_axis 5
      (processed_data.sample_thickness examples.power3)
      (np.Float1 [0; 1; 2]%float)
    = py.Returned [0; 1; 2; 3; 4]%float
  ∧ processed_data.attrs grown.2 !! "range"
    = Some (np.Float1 [0; 1; 2; nan; nan]%float).
Proof. vm_compute. by repeat split. Qed.

(** C10.  [insert] and [replace] of a source whose axis has three samples
    into a target whose axis has two, with a base class that cuts the
    arrays of the source to two samples: [np.interp] gets three sample
    points and two values and raises [ValueError].  The source is left cut
    and with the target's [sample_thickness], on its own axis; no row of it
    is interpolated and none is merged. *)
Theorem longer_source_is_not_interpolated (U : np.ufuncs) :
  processed_data.insert grid_container.it U 0 (Some 1) None None true
    (Some [0]) (examples.store examples.power2 examples.power3_fine)
  = (py.Raised (py.ValueError "fp and xp are not of the same length."),
     examples.store examples.power2 examples.power3_cut)
  ∧ processed_data.replace grid_container.it U 0 (Some 1) None None
      (Some [1]) (examples.store examples.power2 examples.power3_fine)
    = (py.Raised (py.ValueError "fp and xp are not of the same length."),
       examples.store examples.power2 examples.power3_cut).
Proof. split; vm_compute; reflexivity. Qed.

(** ** The theorems at work *)

Lemma interpolate_same_axis_power3 :
  processed_data.interpolate grid_container.it float_ufuncs.it
    [0; 0x1.0000001p0; 2]%float examples.power3
  = (py.Returned tt, examples.power3).
Proof.
  apply (interpolate_same_axis grid_container.it float_ufuncs.it
           examples.power3 [0; 1; 2]%float);
    [reflexivity | reflexivity | by repeat constructor].
Defined.

Lemma shift_pings_all_zero_power3 :
  let run := processed_data.shift_pings grid_container.it float_ufuncs.it
               (processed_data.Vector [0; 0]%float) false examples.power3 in
  processed_data.n_samples run.2 = processed_data.n_samples examples.power3
  ∧ (∀ name, name ≠ "range" → name ≠ "depth" →
       processed_data.attrs run.2 !! name
       = processed_data.attrs examples.power3 !! name)
  ∧ (false = false ∨ processed_data.hasattr "range" examples.power3 = false →
       run.2 = examples.power3
       ∧ ∀ axis, [0; 0]%float ≠ [] →
           processed_data.vertical_axis examples.power3
           = Some (np.Float1 axis) →
           axis ≠ [] → run.1 = py.Returned tt).
Proof.
  apply (shift_pings_all_zero grid_container.it float_ufuncs.it
           examples.power3 [0; 0]%float false).
  repeat constructor; by left.
Defined.

Lemma getitem_sample_mask_checks :
  ∃ name,
    last (processed_data.sample_names examples.power3) = Some name
    ∧ processed_data.__getitem__ (processed_data.KeyMask examples.checks)
        examples.power3
      = (py.Returned
           (processed_data.Array
              (np.Float1
                 (concat (zip_with np.select
                            (processed_data.sample_array examples.power3 name)
                            [[true; false; true]; [false; true; false]])))),
         examples.power3)
    ∧ length (concat (zip_with np.select
                        (processed_data.sample_array examples.power3 name)
                        [[true; false; true]; [false; true; false]]))
      = mask.count (mask.Mask2 [[true; false; true]; [false; true; false]]).
Proof.
  apply (getitem_sample_mask examples.power3 examples.checks);
    [reflexivity | reflexivity | reflexivity
    | by repeat constructor | by repeat constructor | discriminate].
Defined.

Lemma resize_is_the_containers_fake_Sv :
  processed_data.resize grid_container.it 2 3 examples.fake_Sv
  = (py.Returned tt, processed_data.set_n_pings 2 examples.fake_Sv).
Proof.
  apply (resize_is_the_containers grid_container.it examples.fake_Sv 2 3
           (np.Float1 [0; 0.5; 1]%float) [0; 0; 0]%float examples.fake_Sv
           (np.Time1 [0; 1000]%Z)); reflexivity.
Defined.

Lemma to_linear_then_to_log_Sv3 :
  ∃ g' g'',
    processed_data.to_linear float_ufuncs.it examples.Sv3 = (py.Returned tt, g')
    ∧ processed_data.data_type g' = "sv"
    ∧ processed_data.attrs g' !! "sv"
      = Some (np.Float2
                (map (map (λ x, np.power float_ufuncs.it 10 (x / 10)%float))
                   [[0; -10; -20]; [-30; -40; -50]]%float))
    ∧ processed_data.attrs g' !! "Sv" = None
    ∧ processed_data.to_log float_ufuncs.it g' = (py.Returned tt, g'')
    ∧ processed_data.data_type g'' = "Sv"
    ∧ processed_data.attrs g'' !! "Sv"
      = Some (np.Float2
                (map (map (λ x, (10 * np.log10 float_ufuncs.it
                                        (np.power float_ufuncs.it 10 (x / 10)))%float))
                   [[0; -10; -20]; [-30; -40; -50]]%float))
    ∧ processed_data.attrs g'' !! "sv" = None
    ∧ ∀ name, name ≠ "Sv" → name ≠ "sv" →
        processed_data.attrs g'' !! name
        = processed_data.attrs examples.Sv3 !! name.
Proof.
  apply (to_linear_then_to_log float_ufuncs.it examples.Sv3 "Sv" "sv");
    [by left | reflexivity | reflexivity].
Defined.

Lemma merge_interpolates_the_source_power3 :
  let h := examples.store examples.power3 examples.power3_low in
  processed_data.insert grid_container.it float_ufuncs.it 0 (Some 1) None None
    true (Some [1]) h
  = match processed_data.interpolate grid_container.it float_ufuncs.it
            [0; 1; 2]%float examples.power3_low with
    | (py.Raised e, s') => (py.Raised e, <[1 := s']> h)
    | (py.Returned _, s') =>
        match processed_data.super_insert grid_container.it s' None None true
                (Some [1]) examples.power3 with
        | py.Raised e => (py.Raised e, <[1 := s']> h)
        | py.Returned g' => (py.Returned tt, <[0 := g']> (<[1 := s']> h))
        end
    end
  ∧ processed_data.replace grid_container.it float_ufuncs.it 0 (Some 1) None
      None (Some [1]) h
    = match processed_data.interpolate grid_container.it float_ufuncs.it
              [0; 1; 2]%float examples.power3_low with
      | (py.Raised e, s') => (py.Raised e, <[1 := s']> h)
      | (py.Returned _, s') =>
          match processed_data.super_replace grid_container.it s' None None
                  true None examples.power3 with
          | py.Raised e => (py.Raised e, <[1 := s']> h)
          | py.Returned g' => (py.Returned tt, <[0 := g']> (<[1 := s']> h))
          end
      end.
Proof.
  apply (merge_interpolates_the_source grid_container.it float_ufuncs.it 0 1
           examples.power3 examples.power3_low [0; 1; 2]%float None None true
           [1] 1);
    [reflexivity | reflexivity | lia | reflexivity | reflexivity | lia].
Defined.

Lemma interpolate_recomputes_thickness_power3 :
  processed_data.sample_thickness
    (processed_data.interpolate grid_container.it float_ufuncs.it
       [0.5; 2; 2.5]%float examples.power3).2
  = np.mean (np.ediff1d [0.5; 2; 2.5]%float).
Proof.
  apply (interpolate_recomputes_thickness grid_container.it float_ufuncs.it
           [0.5; 2; 2.5]%float [0; 1; 2]%float examples.power3);
    [reflexivity|].
  right. by exists [false; false; false].
Defined.

Lemma interpolate_resamples_power3 :
  ∃ s',
    processed_data.interpolate grid_container.it float_ufuncs.it
      [0.5; 1.5; 2.5]%float examples.power3
    = (py.Returned tt, s')
    ∧ processed_data.sample_thickness s'
      = np.mean (np.ediff1d [0.5; 1.5; 2.5]%float)
    ∧ (∀ name, processed_data.attrs s' !! name
         = if bool_decide
                (name ∈ processed_data._data_attributes examples.power3)
           then processed_data.resampled [0.5; 1.5; 2.5]%float [0; 1; 2]%float
                  <$> processed_data.attrs examples.power3 !! name
           else processed_data.attrs examples.power3 !! name)
    ∧ s' = processed_data.set_attrs (processed_data.attrs s')
             (processed_data.set_sample_thickness
                (np.mean (np.ediff1d [0.5; 1.5; 2.5]%float)) examples.power3).
Proof.
  apply (interpolate_resamples grid_container.it float_ufuncs.it
           [0.5; 1.5; 2.5]%float [0; 1; 2]%float examples.power3
           (Ascii.ascii_of_nat 112));
    [reflexivity | reflexivity | reflexivity | reflexivity | reflexivity
    | reflexivity | | ].
  - apply (bool_decide_unpack _). by vm_compute.
  - repeat constructor; eexists; (split; [reflexivity|]);
      intros rows [= <-] || (intros rows ?; discriminate).
    split; [reflexivity|by repeat constructor].
Defined.

(** ** Loops over the registry, lists of results *)

Section registry_loops.

Import processed_data.
Implicit Types (s : t) (names : list string).

(** A loop whose body puts [f a] in the place of the array [a] it finds
    under a name does so for every name of the list. *)
Lemma for_each_attr (f : np.ndarray → np.ndarray) (P : np.ndarray → Prop)
    (body : string → py.t t unit) names s :
  (∀ name a s', attrs s' !! name = Some a → P a →
     body name s' = (py.Returned tt, set_attrs (<[name := f a]> (attrs s')) s')) →
  NoDup names →
  Forall (λ name, ∃ a, attrs s !! name = Some a ∧ P a) names →
  ∃ s', py.for_each names body s = (py.Returned tt, s')
    ∧ s' = set_attrs (attrs s') s
    ∧ ∀ name, attrs s' !! name
        = if bool_decide (name ∈ names) then f <$> attrs s !! name
          else attrs s !! name.
Proof.
  intros Hbody Hnodup. revert s.
  induction names as [|name names IH]; intros s Hwf.
  { exists s. split_and!; [done|by destruct s|done]. }
  apply NoDup_cons in Hnodup as [Hnotin Hnodup].
  apply Forall_cons in Hwf as [(a & Ha & HP) Hwf].
  set (s1 := set_attrs (<[name := f a]> (attrs s)) s).
  destruct (IH Hnodup s1) as (s' & Hrun & Hs' & Hlookup).
  { apply Forall_forall. intros x Hx.
    rewrite Forall_forall in Hwf. destruct (Hwf x Hx) as (b & Hb & HPb).
    exists b. split; [|done]. subst s1. simpl.
    rewrite lookup_insert_ne; [done|]. by intros ->. }
  exists s'. split_and!.
  - cbn [py.for_each]. eapply bind_returned; [by apply Hbody|]. done.
  - by rewrite Hs' at 1.
  - intros x. rewrite Hlookup. subst s1. simpl.
    destruct (decide (x = name)) as [->|Hne].
    + rewrite bool_decide_eq_false_2 by done.
      rewrite bool_decide_eq_true_2 by apply list_elem_of_here.
      by rewrite lookup_insert_eq, Ha.
    + rewrite lookup_insert_ne by done.
      apply (f_equal (λ b : bool, if b then _ else _)).
      apply bool_decide_ext. rewrite elem_of_cons.
      split; [by right|by intros [?|?]].
Qed.

Lemma getattr_run name s :
  getattr name s
  = (match attrs s !! name with
     | Some a => py.Returned a
     | None => py.Raised (py.AttributeError
                 ("'processed_data' object has no attribute '" +:+ name +:+ "'"))
     end, s).
Proof. unfold getattr. by destruct (attrs s !! name). Qed.

Lemma hasattr_lookup name s :
  hasattr name s = match attrs s !! name with Some _ => true | None => false end.
Proof.
  unfold hasattr. destruct (attrs s !! name).
  - by rewrite bool_decide_eq_true_2 by eauto.
  - by rewrite bool_decide_eq_false_2 by (by intros [? ?]).
Qed.

End registry_loops.

Section more_loops.

Context {S A B : Type}.

Lemma mapM_returned (f : A → py.result B) (g : A → B) (l : list A) :
  Forall (λ x, f x = py.Returned (g x)) l → mapM f l = py.Returned (g <$> l).
Proof.
  induction 1 as [|x l Hx _ IH]; [done|].
  simpl. rewrite Hx. simpl. by rewrite IH.
Qed.

Lemma for_each_raised (l1 l2 : list A) (body : A → py.t S unit) x s s1 e s2 :
  py.for_each l1 body s = (py.Returned tt, s1) →
  body x s1 = (py.Raised e, s2) →
  py.for_each (l1 ++ x :: l2) body s = (py.Raised e, s2).
Proof.
  intros Hl1 Hx. rewrite (for_each_app _ _ _ _ _ Hl1).
  cbn [py.for_each]. by apply bind_raised.
Qed.

(** A loop that rebinds a local variable and leaves the state alone keeps
    an invariant of that variable. *)
Lemma for_fold_invariant (I : list A → B → Prop) (l : list A)
    (body : A → B → py.t S B) s done acc :
  I done acc →
  (∀ d x b, I d b → x ∈ l →
     ∃ b', body x b s = (py.Returned b', s) ∧ I (d ++ [x]) b') →
  ∃ b, py.for_fold l acc body s = (py.Returned b, s) ∧ I (done ++ l) b.
Proof.
  revert done acc. induction l as [|x l IH]; intros done acc Hacc Hbody.
  { exists acc. by rewrite app_nil_r. }
  destruct (Hbody done x acc Hacc) as (b' & Hrun & Hb'); [by left|].
  destruct (IH (done ++ [x]) b' Hb') as (b & Hrest & Hb).
  { intros d y c Hc Hy. apply Hbody; [done|by right]. }
  exists b. split.
  - cbn [py.for_fold]. by eapply bind_returned.
  - by rewrite <- app_assoc in Hb.
Qed.

End more_loops.

(** ** Instances like this one: [_like], [empty_like], [zeros_like], [copy] *)

Section likes.

Import processed_data.
Variable C : container.
Variable U : np.ufuncs.
Implicit Types (h : gmap nat t) (g : t).

(** X7.  [empty_like] and [zeros_like] raise [TypeError] on every call,
    whatever the instance and the arguments: their second call of [_like]
    passes three positional arguments and two keywords to a method of one
    parameter.  The instance is left as it was. *)
Theorem like_methods_raise n empty_times channel g :
  empty_like n empty_times channel g
  = (py.Raised (py.TypeError
       "_like() got an unexpected keyword argument 'empty_times'"), g)
  ∧ zeros_like n empty_times channel g
    = (py.Raised (py.TypeError
         "_like() got an unexpected keyword argument 'empty_times'"), g).
Proof. done. Qed.

(** X8.  [_like] returns the same instance whatever [n_pings] it is given:
    one with the channels, frequency, data type, sample thickness and sample
    offset of [self], and with no ping, no sample and no array (as the base
    constructor leaves it).  [copy] hands this instance to the base class's
    [_copy] and returns what that returns.  Both leave [self] as it was. *)
Theorem like_ignores_n_pings g :
  ∃ o,
    (∀ n, _like n g = (py.Returned o, g))
    ∧ (∀ _copy, copy _copy g = (_copy o g, g))
    ∧ channel_id o = channel_id g ∧ frequency o = frequency g
    ∧ data_type o = data_type g
    ∧ sample_thickness o = sample_thickness g
    ∧ sample_offset o = sample_offset g
    ∧ n_pings o = 0 ∧ n_samples o = 0
    ∧ _data_attributes o = [] ∧ attrs o = ∅.
Proof. eexists. by split_and!. Qed.

(** X9.  [insert] with the source omitted never returns: whatever the
    target, the arguments and the base class, it raises and the store is
    what it was. *)
Theorem insert_without_source_never_returns self ping_number ping_time
    insert_after index_array h :
  ∃ e, insert C U self None ping_number ping_time insert_after index_array h
       = (py.Raised e, h).
Proof.
  unfold insert.
  assert (∀ n, ∃ e, on self (empty_like (Some n) true None) h
                    = (py.Raised e, h)) as Hempty.
  { intros n. unfold on. destruct (h !! self) as [g|] eqn:Hg; [|by eexists].
    eexists. rewrite empty_like_raises. by rewrite insert_id. }
  destruct index_array as [idx|].
  - destruct (Hempty (length idx)) as [e He]. exists e.
    step. by do 2 apply bind_raised.
  - destruct (h !! self) as [g|] eqn:Hg.
    + destruct (get_indices C ping_time ping_time ping_number ping_number g)
        as [e|rows] eqn:Hrows.
      * exists e. do 2 apply bind_raised.
        eapply on_unchanged; [done|]. unfold py.lift. by rewrite Hrows.
      * destruct rows as [|idx rows].
        -- eexists. apply bind_raised.
           step; [eapply on_unchanged; [done|]; unfold py.lift; by rewrite Hrows|].
           by apply bind_raised.
        -- destruct (Hempty (n_pings g - idx)) as [e He]. exists e.
           eapply bind_returned.
           { step; [eapply on_unchanged; [done|]; unfold py.lift; by rewrite Hrows|].
             step. step; [by apply deref_lookup|]. done. }
           by do 2 apply bind_raised.
    + eexists. do 2 apply bind_raised. unfold on. by rewrite Hg.
Qed.


End likes.

(** ** Padding at the top *)

Section padding.

Import processed_data.
Variable C : container.
Implicit Types (g s : t).

Lemma pad_row_run n old row :
  length row = old + n →
  pad_row n old row = py.Returned (replicate n nan ++ take old row).
Proof.
  intros Hlen. unfold pad_row.
  rewrite length_take, Hlen.
  replace (old `min` (old + n)) with old by lia.
  replace (old + n - n) with old by lia.
  rewrite Nat.eqb_refl. simpl.
  by replace (n `min` (old + n)) with n by lia.
Qed.

Lemma pad_attr_run n old name a s :
  attrs s !! name = Some a →
  (∀ rows, a = np.Float2 rows → Forall (λ row, length row = old + n) rows) →
  pad_attr n old name s
  = (py.Returned tt, set_attrs (<[name := padded n old a]> (attrs s)) s).
Proof.
  intros Ha Hshape. unfold pad_attr.
  step; [by unfold getattr; rewrite Ha|].
  destruct a as [v|rows|ticks]; simpl.
  - rewrite insert_id by done. by destruct s.
  - step; [|done].
    unfold py.lift.
    rewrite (mapM_returned _ (λ row, replicate n nan ++ take old row)); [done|].
    eapply Forall_impl; [by apply Hshape|].
    intros row Hrow. by apply pad_row_run.
  - rewrite insert_id by done. by destruct s.
Qed.

Lemma length_padded_axis n_samples n thickness attr0 :
  length (padded_axis n_samples n thickness attr0) = n_samples.
Proof. unfold padded_axis, np.arange. by rewrite !length_fmap, length_seq. Qed.

(** X11.  [pad_top(n)] on a grid that [resize] leaves as [g1], with an
    axis of [n_samples] elements that starts with [a0] and with rows of
    [n] samples more than before in every registered 2-d array (each name
    registered once): the call returns; the axis array now holds
    [(i - n) * sample_thickness + a0] for [i = 0, 1, ...] (unlike [resize],
    the method writes it in place); every row of every registered 2-d
    array starts with [n] NaN, followed by the samples it had; and
    everything else is as the resize left it. *)
Theorem pad_top_shifts_the_samples g n g1 a0 axis1 :
  resize C (n_pings g) (n_samples g + n) g = (py.Returned tt, g1) →
  vertical_axis g1 = Some (np.Float1 (a0 :: axis1)) →
  length (a0 :: axis1) = n_samples g1 →
  NoDup (_data_attributes g1) →
  Forall (λ name, ∃ a, attrs g1 !! name = Some a
            ∧ ∀ rows, a = np.Float2 rows →
                Forall (λ row, length row = n_samples g + n) rows)
    (_data_attributes g1) →
  ∃ g', pad_top C n g = (py.Returned tt, g')
    ∧ g' = set_attrs (attrs g') g1
    ∧ vertical_axis g'
      = Some (np.Float1
                (padded_axis (n_samples g1) n (sample_thickness g1) a0))
    ∧ ∀ name, name ≠ (if hasattr "range" g1 then "range" else "depth") →
        attrs g' !! name
        = if bool_decide (name ∈ _data_attributes g1)
          then padded n (n_samples g) <$> attrs g1 !! name
          else attrs g1 !! name.
Proof.
  intros Hresize Haxis Hlen Hnodup Hwf.
  set (ax := if hasattr "range" g1 then "range" else "depth").
  set (new := padded_axis (n_samples g1) n (sample_thickness g1) a0).
  set (s1 := set_attrs (<[ax := np.Float1 new]> (attrs g1)) g1).
  assert (attrs g1 !! ax = Some (np.Float1 (a0 :: axis1))) as Hax.
  { subst ax. unfold vertical_axis in Haxis. rewrite hasattr_lookup.
    destruct (attrs g1 !! "range") as [a|] eqn:Hr; simpl; [by rewrite Hr|done]. }
  destruct (for_each_attr (padded n (n_samples g))
              (λ a, ∀ rows, a = np.Float2 rows →
                      Forall (λ row, length row = n_samples g + n) rows)
              (pad_attr n (n_samples g)) (_data_attributes g1) s1)
    as (g' & Hrun & Hg' & Hlookup); [|done| |].
  { intros name a s' Ha HP. by apply pad_attr_run. }
  { eapply Forall_impl; [exact Hwf|]. intros name (a & Ha & HP).
    subst s1. simpl. destruct (decide (name = ax)) as [->|Hne].
    - rewrite lookup_insert_eq. eexists. split; [done|]. by intros rows.
    - rewrite lookup_insert_ne by done. by exists a. }
  assert (attrs g' !! ax = Some (np.Float1 new)) as Hax'.
  { rewrite Hlookup. subst s1. simpl. rewrite lookup_insert_eq.
    by destruct (bool_decide (ax ∈ _data_attributes g1)). }
  exists g'. split_and!.
  - unfold pad_top.
    step.
    step; [exact Hresize|].
    step. fold ax.
    step; [by eapply bind_returned; [unfold getattr; rewrite Hax|]|].
    step.
    step.
    { unfold py.lift, assign_all. fold new.
      subst new. by rewrite length_padded_axis, Hlen, Nat.eqb_refl. }
    step. exact Hrun.
  - rewrite Hg' at 1. by subst s1.
  - unfold vertical_axis. subst ax. rewrite hasattr_lookup in Hax'.
    destruct (attrs g1 !! "range") as [a|] eqn:Hr.
    + by rewrite Hax'.
    + rewrite Hlookup at 1. subst s1. simpl.
      rewrite hasattr_lookup, Hr, lookup_insert_ne, Hr by done.
      by destruct (bool_decide ("range" ∈ _data_attributes g1)).
  - intros name Hname. rewrite Hlookup. subst s1. simpl.
    by rewrite lookup_insert_ne.
Qed.

End padding.

(** ** Assignment *)

Section assignment.

Import processed_data.
Variable C : container.
Variable U : np.ufuncs.
Implicit Types (h : gmap nat t) (g s : t) (mm : list (list bool)).

Lemma put_replicate row m k x :
  mask.count_true m ≤ k →
  put row m (replicate k x) = zip_with (λ v (b : bool), if b then x else v) row m
                              ++ drop (length m) row.
Proof.
  revert m k. induction row as [|v row IH]; intros [|b m] k Hk; try done.
  simpl in *. destruct b.
  - destruct k as [|k]; [lia|]. simpl. f_equal. apply IH. lia.
  - f_equal. apply IH. lia.
Qed.

Lemma put_rows_replicate rows mm k x :
  np.same_shape rows mm = true →
  mask.count (mask.Mask2 mm) ≤ k →
  put_rows rows mm (replicate k x)
  = zip_with (zip_with (λ v (b : bool), if b then x else v)) rows mm.
Proof.
  unfold np.same_shape, mask.count. rewrite andb_true_iff.
  intros [Hn Hrows]. apply Nat.eqb_eq in Hn.
  revert mm k Hn Hrows.
  induction rows as [|row rows IH]; intros [|m mm] k Hn Hrows Hk; try done.
  simpl in *. apply andb_true_iff in Hrows as [Hrow Hrows].
  apply Nat.eqb_eq in Hrow.
  rewrite drop_replicate. f_equal.
  - rewrite put_replicate by lia. rewrite <- Hrow. by rewrite drop_all, app_nil_r.
  - apply IH; [lia|done|unfold fmap; lia].
Qed.

Lemma assign_attr_run mm x name a s :
  attrs s !! name = Some a →
  (∀ rows, a = np.Float2 rows → np.same_shape rows mm = true) →
  assign_attr (mask.Mask2 mm) (Num x) name s
  = (py.Returned tt, set_attrs (<[name := masked_fill x mm a]> (attrs s)) s).
Proof.
  intros Ha Hshape. unfold assign_attr.
  step; [by unfold getattr; rewrite Ha|].
  destruct a as [v|rows|ticks]; simpl.
  - rewrite insert_id by done. by destruct s.
  - step.
    { unfold py.lift, setitem_mask. rewrite (Hshape rows eq_refl). simpl.
      by rewrite put_rows_replicate by (by apply Hshape || done). }
    done.
  - rewrite insert_id by done. by destruct s.
Qed.

(** X12.  The assignment of a number [x] with a mask that passes
    [_check_mask] and gives the 2-d mask [mm] (the array of a sample mask,
    or the rows that a ping mask selects), on a grid whose registry names
    each array once and whose 2-d arrays have the shape of [mm]: the call
    returns, and every registered 2-d array -- not only the one named after
    the data type -- has [x] where [mm] is [True] and its old element
    elsewhere.  The 1-d arrays and everything else are what they were. *)
Theorem setitem_mask_writes_every_sample_array self g m mm x h :
  h !! self = Some g →
  _check_mask m g = (py.Returned tt, g) →
  sample_mask_of m g = (py.Returned (mask.Mask2 mm), g) →
  NoDup (_data_attributes g) →
  Forall (λ name, ∃ a, attrs g !! name = Some a
            ∧ ∀ rows, a = np.Float2 rows → np.same_shape rows mm = true)
    (_data_attributes g) →
  ∃ g', __setitem__ C U self (AssignMask m (Num x)) h
        = (py.Returned tt, <[self := g']> h)
    ∧ g' = set_attrs (attrs g') g
    ∧ ∀ name, attrs g' !! name
        = if bool_decide (name ∈ _data_attributes g)
          then masked_fill x mm <$> attrs g !! name
          else attrs g !! name.
Proof.
  intros Hg Hcheck Hmask Hnodup Hwf.
  destruct (for_each_attr (masked_fill x mm)
              (λ a, ∀ rows, a = np.Float2 rows → np.same_shape rows mm = true)
              (assign_attr (mask.Mask2 mm) (Num x)) (_data_attributes g) g)
    as (g' & Hrun & Hg' & Hlookup); [|done|done|].
  { intros name a s' Ha HP. by apply assign_attr_run. }
  exists g'. split_and!; [|done..].
  unfold __setitem__. eapply on_lookup; [done|].
  eapply bind_returned; [exact Hcheck|].
  eapply bind_returned; [exact Hmask|].
  by step.
Qed.

(** X13.  The assignment [self[start:stop:step] = value] with a slice that
    covers two or more pings ([round((stop - start) / step) >= 2]) raises
    [ValueError], whatever the value, the grid and the base class, and
    leaves the store as it was: the index array it builds has two or more
    elements, and [replace] tests its truth value. *)
Theorem setitem_slice_of_several_pings_raises self lo hi k value h :
  (2 ≤ round_quotient (Z.of_nat hi - Z.of_nat lo) k)%Z →
  __setitem__ C U self (AssignSlice (Some lo) (Some hi) (Some k) value) h
  = (py.Raised (py.ValueError
       "The truth value of an array with more than one element is ambiguous. Use a.any() or a.all()"),
     h).
Proof.
  intros Hn. unfold __setitem__, replace_idx.
  step.
  destruct (Z.to_nat _) as [|[|n]] eqn:Hlen; [lia..|].
  done.
Qed.

End assignment.

(** ** Reading with a ping mask, with slices *)

Section reading.

Import processed_data.
Implicit Types (g p : t) (v : list bool) (pings samples : np.slice).

Lemma select_replicate {A} (row : list A) (b : bool) :
  np.select row (replicate (length row) b) = if b then row else [].
Proof.
  induction row as [|x row IH]; [by destruct b|].
  simpl. rewrite IH. by destruct b.
Qed.

Lemma ping_rows (rows : list (list float)) v k :
  length rows = length v →
  Forall (λ row, length row = k) rows →
  np.same_shape rows (replicate k <$> v) = true
  ∧ concat (zip_with np.select rows (replicate k <$> v))
    = concat (np.select rows v)
  ∧ length (concat (np.select rows v)) = mask.count_true v * k.
Proof.
  unfold np.same_shape. rewrite length_fmap. intros Hlen Hrows.
  rewrite Hlen, Nat.eqb_refl. simpl.
  revert v Hlen. induction Hrows as [|row rows Hrow _ IH]; intros [|b v] Hlen;
    try done.
  simpl in *. destruct (IH v ltac:(lia)) as (IH1 & IH2 & IH3).
  unfold fmap in IH1, IH2.
  rewrite length_replicate, Hrow, Nat.eqb_refl, IH1, IH2. simpl.
  rewrite <- Hrow at 1. rewrite select_replicate.
  split_and!; [done|by destruct b|].
  destruct b; simpl; [|done]. rewrite length_app. lia.
Qed.

(** X14.  Reading with a ping mask (a mask whose type is not [sample],
    with one entry for each ping) that passes [_check_mask], on a grid
    whose registered names all have their array and whose 2-d arrays, of
    which there is at least one, have [n_pings] rows of [n_samples]
    samples: the call returns a 1-d numpy array, not an instance -- the
    rows of the pings that the mask selects, one after the other, taken
    from the 2-d array that is registered last.  It has [n_samples]
    elements for each selected ping. *)
Theorem getitem_ping_mask g m v :
  _check_mask m g = (py.Returned tt, g) →
  py.lower (mask.type m) ≠ "sample" →
  mask.mask m = mask.Mask1 v →
  length v = n_pings g →
  Forall (λ name, is_Some (attrs g !! name)) (_data_attributes g) →
  Forall (λ name, length (sample_array g name) = n_pings g
                  ∧ Forall (λ row, length row = n_samples g)
                      (sample_array g name))
    (sample_names g) →
  sample_names g ≠ [] →
  ∃ name,
    last (sample_names g) = Some name
    ∧ __getitem__ (KeyMask m) g
      = (py.Returned
           (Array (np.Float1 (concat (np.select (sample_array g name) v)))),
         g)
    ∧ length (concat (np.select (sample_array g name) v))
      = mask.count_true v * n_samples g.
Proof.
  intros Hcheck Htype Hmask Hlen Hreg Hshape Hsome.
  destruct (last (sample_names g)) as [name|] eqn:Hlast;
    [|by apply last_None in Hlast].
  assert (name ∈ sample_names g) as Hin by (by apply last_Some_elem_of).
  exists name.
  rewrite Forall_forall in Hshape.
  destruct (Hshape name Hin) as [Hrows Hwidth].
  destruct (ping_rows (sample_array g name) v (n_samples g)) as (_ & Hsel & Hcount);
    [lia|done|].
  split_and!; [done| |done].
  unfold __getitem__.
  eapply bind_returned; [exact Hcheck|].
  step.
  rewrite decide_False by done. rewrite Hmask, Hlen, Nat.eqb_refl.
  step.
  eapply bind_returned.
  { apply select_samples_last; [done|].
    apply Forall_forall. intros x Hx.
    destruct (Hshape x Hx) as [Hxrows Hxwidth].
    by destruct (ping_rows (sample_array g x) v (n_samples g)) as (? & _ & _);
      [lia|done|]. }
  fold (sample_names g). rewrite Hlast. by rewrite Hsel.
Qed.

(** X15.  Reading with a sample mask that passes [_check_mask], on a grid
    whose registered names all have their array and none of them a 2-d
    array: the loop never binds [p_data], and [return p_data] raises
    [UnboundLocalError].  The grid is left as it was. *)
Theorem getitem_mask_without_sample_arrays g m :
  _check_mask m g = (py.Returned tt, g) →
  py.lower (mask.type m) = "sample" →
  Forall (λ name, is_Some (attrs g !! name)) (_data_attributes g) →
  sample_names g = [] →
  __getitem__ (KeyMask m) g
  = (py.Raised (py.UnboundLocalError
       "local variable 'p_data' referenced before assignment"), g).
Proof.
  intros Hcheck Htype Hreg Hnone.
  unfold __getitem__.
  eapply bind_returned; [exact Hcheck|].
  step.
  rewrite decide_True by done.
  step.
  destruct (mask.mask m) as [v|mm].
  - assert (select_samples (mask.Mask1 v) (_data_attributes g) None g
            = (py.Returned None, g)) as Hrun.
    { unfold select_samples. clear Hcheck.
      unfold sample_names in Hnone.
      induction (_data_attributes g) as [|name names IH]; [done|].
      apply Forall_cons in Hreg as [[a Ha] Hreg].
      cbn [py.for_fold].
      assert (is_sample_array g name = false) as Hname.
      { destruct (is_sample_array g name) eqn:Hs; [|done].
        by rewrite filter_cons_True in Hnone. }
      rewrite filter_cons_False in Hnone by (by rewrite Hname).
      eapply bind_returned; [|by apply IH].
      step; [by unfold getattr; rewrite Ha|].
      unfold is_sample_array in Hname. rewrite Ha in Hname.
      by destruct a. }
    by eapply bind_returned; [exact Hrun|].
  - eapply bind_returned.
    { apply select_samples_last; [done|].
      fold (sample_names g). by rewrite Hnone. }
    fold (sample_names g). by rewrite Hnone.
Qed.

Lemma getitem_slice_cut {A} (s : np.slice) (l : list A) :
  np.step s ≠ Some 0 → np.getitem_slice s l = py.Returned (cut s l).
Proof.
  intros Hstep. unfold np.getitem_slice, cut.
  destruct (np.step s) as [[|k]|]; done.
Qed.

(** X16.  Reading with two slices whose steps are not 0, on a grid whose
    registered names all have their array: the call returns a new
    instance and leaves the grid as it was.  The instance has the grid's
    channels, frequency, data type, sample thickness and registry; under
    every registered name it has the grid's array cut by the slices -- a
    2-d array by both, a 1-d array by the ping slice if it is as long as
    the grid has pings (the vertical axis too, on a grid with as many
    samples as pings) and by the sample slice otherwise -- and it has no
    other array.  Its [sample_offset] is the start of the sample slice:
    the grid's own [sample_offset] is not carried over.  (The attribute
    [sample_dtype] of the base class, which the method copies too, is not
    part of the record of an instance.) *)
Theorem getitem_slices g pings samples :
  np.step pings ≠ Some 0 → np.step samples ≠ Some 0 →
  Forall (λ name, is_Some (attrs g !! name)) (_data_attributes g) →
  ∃ p,
    __getitem__ (KeySlices pings samples) g = (py.Returned (Instance p), g)
    ∧ channel_id p = channel_id g ∧ frequency p = frequency g
    ∧ data_type p = data_type g
    ∧ sample_thickness p = sample_thickness g
    ∧ _data_attributes p = _data_attributes g
    ∧ sample_offset p = default 0 (np.start samples)
    ∧ ∀ name, attrs p !! name
        = if bool_decide (name ∈ _data_attributes g)
          then sliced pings samples (n_pings g) <$> attrs g !! name
          else None.
Proof.
  intros Hpings Hsamples Hreg.
  set (I := λ (done : list string) (b : t),
         channel_id b = channel_id g ∧ frequency b = frequency g
         ∧ data_type b = data_type g
         ∧ sample_thickness b = sample_thickness g
         ∧ _data_attributes b = _data_attributes g
         ∧ sample_offset b = 0
         ∧ ∀ name, attrs b !! name
             = if bool_decide (name ∈ done)
               then sliced pings samples (n_pings g) <$> attrs g !! name
               else None).
  pose proof (eq_refl (__getitem__ (KeySlices pings samples) g)) as Hget.
  unfold __getitem__ in Hget at 2.
  rewrite (bind_run py.get _ g g g eq_refl) in Hget.
  match type of Hget with
  | _ = (py.for_fold ?l ?acc ?body ≫= _) _ =>
      destruct (for_fold_invariant I l body g [] acc) as (p & Hrun & Hp)
  end.
  { by split_and!. }
  { intros d name b (H1 & H2 & H3 & H4 & H5 & H6 & H7) Hname.
    rewrite Forall_forall in Hreg. destruct (Hreg name Hname) as [a Ha].
    assert (∀ b' : t,
              attrs b' = <[name := sliced pings samples (n_pings g) a]> (attrs b) →
              ∀ x, attrs b' !! x
                   = if bool_decide (x ∈ d ++ [name])
                     then sliced pings samples (n_pings g) <$> attrs g !! x
                     else None) as Hattrs.
    { intros b' Hb' x. rewrite Hb'.
      destruct (decide (x = name)) as [->|Hne].
      - rewrite lookup_insert_eq, Ha.
        rewrite bool_decide_eq_true_2; [done|].
        apply elem_of_app. right. by apply list_elem_of_singleton.
      - rewrite lookup_insert_ne, H7 by done.
        apply (f_equal (λ c : bool, if c then _ else _)).
        apply bool_decide_ext. rewrite elem_of_app, list_elem_of_singleton.
        split; [by left|by intros [?|?]]. }
    destruct a as [v|rows|ticks].
    - destruct (length v =? n_pings g) eqn:Hv.
      + eexists. split.
        { step; [by unfold getattr; rewrite Ha|]. cbn [np.shape0]. rewrite Hv.
          step; [by unfold py.lift; simpl; rewrite getitem_slice_cut|]. done. }
        split_and!; try done. apply Hattrs. simpl. by rewrite Hv.
      + eexists. split.
        { step; [by unfold getattr; rewrite Ha|]. cbn [np.shape0]. rewrite Hv.
          step; [by unfold py.lift; simpl; rewrite getitem_slice_cut|]. done. }
        split_and!; try done. apply Hattrs. simpl. by rewrite Hv.
    - eexists. split.
      { step; [by unfold getattr; rewrite Ha|].
        step; [by unfold py.lift; rewrite getitem_slice_cut|].
        step; [|done].
        unfold py.lift. rewrite (mapM_returned _ (cut samples)); [done|].
        apply Forall_forall. intros row _. by apply getitem_slice_cut. }
      split_and!; try done. by apply Hattrs.
    - destruct (length ticks =? n_pings g) eqn:Hv.
      + eexists. split.
        { step; [by unfold getattr; rewrite Ha|]. cbn [np.shape0]. rewrite Hv.
          step; [by unfold py.lift; simpl; rewrite getitem_slice_cut|]. done. }
        split_and!; try done. apply Hattrs. simpl. by rewrite Hv.
      + eexists. split.
        { step; [by unfold getattr; rewrite Ha|]. cbn [np.shape0]. rewrite Hv.
          step; [by unfold py.lift; simpl; rewrite getitem_slice_cut|]. done. }
        split_and!; try done. apply Hattrs. simpl. by rewrite Hv. }
  destruct Hp as (H1 & H2 & H3 & H4 & H5 & H6 & H7).
  exists (set_sample_offset (sample_offset p + default 0 (np.start samples)) p).
  split_and!; try done.
  - rewrite Hget. by eapply bind_returned; [exact Hrun|].
  - simpl. by rewrite H6.
Qed.

End reading.

(** ** Checks of a mask and of another grid *)

Section floats.

#[local] Open Scope float_scope.

Lemma eqb_nan x y : is_nan x = true → (x =? y) = false.
Proof.
  unfold is_nan. rewrite !FloatAxioms.eqb_spec.
  destruct (Prim2SF x) as [s|s| |s m e]; try done.
  - by destruct s.
  - unfold SFeqb, SFcompare.
    by destruct s; rewrite Z.compare_refl, ?Pos.compare_cont_refl.
Qed.

Lemma array_equal_float_nan v w :
  Exists (λ x, is_nan x = true) v → np.array_equal_float v w = false.
Proof.
  intros Hnan. revert w. induction Hnan as [x v Hx|x v _ IH]; intros [|y w];
    try done; simpl.
  - by rewrite eqb_nan.
  - rewrite IH. by destruct (x =? y).
Qed.

Lemma array_equal_nan v b :
  Exists (λ x, is_nan x = true) v → np.array_equal (np.Float1 v) b = false.
Proof. intros Hnan. destruct b; try done. by apply array_equal_float_nan. Qed.

End floats.

Section checks.

Import processed_data.
Implicit Types (g o : t) (m : mask.t).

Ltac run :=
  unfold _check_mask, _is_like_me, attribute, mask_depth;
  cbv [mbind py_bind py.bind mret py_ret py.ret py.lift py.get py.raise];
  rewrite ?getattr_run, ?hasattr_lookup; cbn [fst snd].

(** X17.  [_check_mask] never changes the grid, and it returns exactly
    when the grid has a [ping_time] that [np.array_equal] finds equal to
    the mask's and, if the mask has a [range] (or else, if it has a
    [depth]), the grid has the attribute of that name and
    [np.array_equal] finds it equal to the mask's; a mask with neither
    passes on its ping times alone. *)
Theorem check_mask_passes_iff m g :
  (_check_mask m g).2 = g
  ∧ (_check_mask m g = (py.Returned tt, g)
     ↔ (∃ t, attrs g !! "ping_time" = Some t
          ∧ np.array_equal t (np.Time1 (mask.ping_time m)) = true)
       ∧ match mask.range m, mask.depth m with
         | Some r, _ =>
             ∃ a, attrs g !! "range" = Some a
                  ∧ np.array_equal a (np.Float1 r) = true
         | None, Some d =>
             ∃ a, attrs g !! "depth" = Some a
                  ∧ np.array_equal a (np.Float1 d) = true
         | None, None => True
         end).
Proof.
  run.
  destruct (attrs g !! "ping_time") as [t|] eqn:Ht; cbn [fst snd].
  2:{ split; [done|]. split; [done|]. by intros [(? & ? & ?) _]. }
  destruct (np.array_equal t _) eqn:Heq; cbn [negb].
  2:{ split; [done|]. split; [done|]. intros [(? & [= <-] & ?) _]. congruence. }
  destruct (mask.range m) as [r|], (mask.depth m) as [d|];
    rewrite ?getattr_run, ?hasattr_lookup.
  - destruct (attrs g !! "range") as [a|] eqn:Ha; rewrite ?getattr_run, ?Ha.
    + destruct (np.array_equal a _) eqn:Hr; (split; [done|]); cbn [negb].
      * split; [|done]. intros _. split; eauto.
      * split; [done|]. intros [_ (? & [= <-] & ?)]. congruence.
    + split; [done|]. split; [done|]. by intros [_ (? & ? & ?)].
  - destruct (attrs g !! "range") as [a|] eqn:Ha; rewrite ?getattr_run, ?Ha.
    + destruct (np.array_equal a _) eqn:Hr; (split; [done|]); cbn [negb].
      * split; [|done]. intros _. split; eauto.
      * split; [done|]. intros [_ (? & [= <-] & ?)]. congruence.
    + split; [done|]. split; [done|]. by intros [_ (? & ? & ?)].
  - destruct (attrs g !! "depth") as [a|] eqn:Ha; rewrite ?getattr_run, ?Ha.
    + destruct (np.array_equal a _) eqn:Hr; (split; [done|]); cbn [negb].
      * split; [|done]. intros _. split; eauto.
      * split; [done|]. intros [_ (? & [= <-] & ?)]. congruence.
    + split; [done|]. split; [done|]. by intros [_ (? & ? & ?)].
  - split; [done|]. split; [|done]. intros _. split; eauto.
Qed.

(** X18.  [_is_like_me] never changes the grid, and it returns exactly
    when both grids have a [ping_time] and a [range] that
    [np.array_equal] finds equal.  An object without [range] never
    passes, a depth-based one included: the method then raises
    [AttributeError], for two depth-based grids because it compares with
    [mask.depth], an attribute of the imported module. *)
Theorem is_like_me_passes_iff o g :
  (_is_like_me o g).2 = g
  ∧ (_is_like_me o g = (py.Returned tt, g)
     ↔ ∃ t t' r r',
         attrs g !! "ping_time" = Some t ∧ attrs o !! "ping_time" = Some t'
         ∧ np.array_equal t t' = true
         ∧ attrs g !! "range" = Some r ∧ attrs o !! "range" = Some r'
         ∧ np.array_equal r r' = true)
  ∧ (hasattr "range" o = false → ∃ e, _is_like_me o g = (py.Raised e, g)).
Proof.
  run.
  destruct (attrs g !! "ping_time") as [t|] eqn:Ht; cbn [fst snd].
  2:{ split_and!; [done| |by eauto]. split; [done|].
      by intros (? & ? & ? & ? & ? & _). }
  destruct (attrs o !! "ping_time") as [t'|] eqn:Ht'; cbn [fst snd].
  2:{ split_and!; [done| |by eauto]. split; [done|].
      by intros (? & ? & ? & ? & ? & ? & _). }
  destruct (np.array_equal t t') eqn:Heq; cbn [negb].
  2:{ split_and!; [done| |by eauto]. split; [done|].
      intros (? & ? & ? & ? & [= <-] & [= <-] & ? & _). congruence. }
  rewrite ?getattr_run, ?hasattr_lookup.
  destruct (attrs o !! "range") as [r'|] eqn:Hr'; cbn [fst snd].
  - destruct (attrs g !! "range") as [r|] eqn:Hr; rewrite ?getattr_run, ?Hr, ?Hr';
      cbn [fst snd].
    + destruct (np.array_equal r r') eqn:Hreq; cbn [negb].
      * split_and!; [done| |done]. split; [|done]. intros _.
        by exists t, t', r, r'.
      * split_and!; [done| |done]. split; [done|].
        intros (? & ? & ? & ? & _ & _ & _ & [= <-] & [= <-] & ?). congruence.
    + split_and!; [done| |done]. split; [done|].
      by intros (? & ? & ? & ? & _ & _ & _ & ? & _).
  - destruct (attrs g !! "depth") as [d|] eqn:Hd; rewrite ?getattr_run, ?Hd;
      cbn [fst snd].
    + split_and!; [done| |by eauto]. split; [done|].
      by intros (? & ? & ? & ? & _ & _ & _ & _ & ? & _).
    + split_and!; [done| |by eauto]. split; [done|].
      by intros (? & ? & ? & ? & _ & _ & _ & _ & ? & _).
Qed.

(** X19.  A grid whose [range] holds a NaN -- an axis that a resize has
    padded, for one -- passes no check: [_check_mask] raises for every mask
    that has a [range], the grid's own range included, and [_is_like_me]
    raises for every object, the grid itself included, since
    [np.array_equal] finds a NaN equal to nothing.  The grid is left as it
    was. *)
Theorem axis_with_nan_passes_no_check g v :
  attrs g !! "range" = Some (np.Float1 v) →
  Exists (λ x, is_nan x = true) v →
  (∀ m r, mask.range m = Some r → ∃ e, _check_mask m g = (py.Raised e, g))
  ∧ (∀ o, ∃ e, _is_like_me o g = (py.Raised e, g)).
Proof.
  intros Hrange Hnan. split.
  - intros m r Hr. run.
    destruct (attrs g !! "ping_time") as [t|]; cbn [fst snd]; [|by eauto].
    destruct (np.array_equal t _); cbn [negb]; [|by eauto].
    rewrite Hr, hasattr_lookup, Hrange, getattr_run, Hrange.
    rewrite array_equal_nan by done. by eauto.
  - intros o. run.
    destruct (attrs g !! "ping_time") as [t|]; cbn [fst snd]; [|by eauto].
    destruct (attrs o !! "ping_time") as [t'|]; cbn [fst snd]; [|by eauto].
    destruct (np.array_equal t t'); cbn [negb]; [|by eauto].
    rewrite !hasattr_lookup, Hrange.
    destruct (attrs o !! "range") as [r'|] eqn:Hr'; cbn [fst snd].
    + rewrite ?getattr_run, ?Hrange, ?Hr'. cbn [fst snd].
      rewrite array_equal_nan by done. by eauto.
    + destruct (attrs g !! "depth") eqn:Hd; rewrite ?getattr_run, ?Hd;
        cbn [fst snd]; by eauto.
Qed.

End checks.

(** ** Conversions, shifts without extent, grids without an axis *)

Section conversions.

Import processed_data.
Variable C : container.
Variable U : np.ufuncs.
Implicit Types (g s : t).

Lemma to_linear_on_linear g :
  data_type g ≠ "Sv" → data_type g ≠ "Sp" → to_linear U g = (py.Returned tt, g).
Proof. intros H1 H2. unfold to_linear. step. by rewrite !decide_False. Qed.

Lemma to_log_on_log g :
  data_type g ≠ "sv" → data_type g ≠ "sp" → to_log U g = (py.Returned tt, g).
Proof. intros H1 H2. unfold to_log. step. by rewrite !decide_False. Qed.

Lemma to_linear_data_type g g' :
  to_linear U g = (py.Returned tt, g') →
  data_type g' ≠ "Sv" ∧ data_type g' ≠ "Sp".
Proof.
  unfold to_linear.
  cbv [mbind py_bind py.bind mret py_ret py.ret py.lift py.get py.modify
       add_attribute remove_attribute].
  repeat case_decide; rewrite ?getattr_run.
  - destruct (attrs g !! "Sv") as [a|]; [|done].
    destruct (np.map_float _ a); [done|]. by intros [= <-].
  - destruct (attrs g !! "Sp") as [a|]; [|done].
    destruct (np.map_float _ a); [done|]. by intros [= <-].
  - by intros [= <-].
Qed.

Lemma to_log_data_type g g' :
  to_log U g = (py.Returned tt, g') →
  data_type g' ≠ "sv" ∧ data_type g' ≠ "sp".
Proof.
  unfold to_log.
  cbv [mbind py_bind py.bind mret py_ret py.ret py.lift py.get py.modify
       add_attribute remove_attribute].
  repeat case_decide; rewrite ?getattr_run.
  - destruct (attrs g !! "sv") as [a|]; [|done].
    destruct (np.map_float _ a); [done|]. by intros [= <-].
  - destruct (attrs g !! "sp") as [a|]; [|done].
    destruct (np.map_float _ a); [done|]. by intros [= <-].
  - by intros [= <-].
Qed.

(** X20.  [to_linear] twice is [to_linear] once, and [to_log] twice is
    [to_log] once, in the result and in the grid they leave, whether the
    first call returns or raises: after a conversion the data type is one
    the same conversion leaves alone.  [to_linear] returns at once on data
    that is neither [Sv] nor [Sp], and [to_log] on data that is neither
    [sv] nor [sp]: the grid is what it was. *)
Theorem conversions_are_idempotent g :
  (to_linear U;; to_linear U) g = to_linear U g
  ∧ (to_log U;; to_log U) g = to_log U g
  ∧ (data_type g ≠ "Sv" → data_type g ≠ "Sp" →
       to_linear U g = (py.Returned tt, g))
  ∧ (data_type g ≠ "sv" → data_type g ≠ "sp" →
       to_log U g = (py.Returned tt, g)).
Proof.
  split_and!; [| |apply to_linear_on_linear|apply to_log_on_log].
  - destruct (to_linear U g) as [[e|[]] g'] eqn:Hrun; [by apply bind_raised|].
    eapply bind_returned; [exact Hrun|].
    destruct (to_linear_data_type g g' Hrun). by apply to_linear_on_linear.
  - destruct (to_log U g) as [[e|[]] g'] eqn:Hrun; [by apply bind_raised|].
    eapply bind_returned; [exact Hrun|].
    destruct (to_log_data_type g g' Hrun). by apply to_log_on_log.
Qed.

(** X21.  A grid with neither [range] nor [depth]: [resize], [pad_top]
    and [shift_pings] raise the [AttributeError] of the missing attribute
    [depth], and [interpolate] raises its own.  Each leaves the grid as it
    was, and none calls the base class. *)
Theorem methods_need_an_axis g :
  attrs g !! "range" = None → attrs g !! "depth" = None →
  (∀ new_ping_dim new_sample_dim,
     resize C new_ping_dim new_sample_dim g
     = (py.Raised (py.AttributeError
          "'processed_data' object has no attribute 'depth'"), g))
  ∧ (∀ n, pad_top C n g
          = (py.Raised (py.AttributeError
               "'processed_data' object has no attribute 'depth'"), g))
  ∧ (∀ x to_depth,
       shift_pings C U (Scalar x) to_depth g
       = (py.Raised (py.AttributeError
            "'processed_data' object has no attribute 'depth'"), g))
  ∧ (∀ new_vaxis,
       interpolate C U new_vaxis g
       = (py.Raised (py.AttributeError
            "The data object has neither a range nor depth attribute."), g)).
Proof.
  intros Hr Hd.
  assert (∀ p q, resize C p q g
                 = (py.Raised (py.AttributeError
                      "'processed_data' object has no attribute 'depth'"), g))
    as Hresize.
  { intros p q. unfold resize. step. apply bind_raised.
    by rewrite hasattr_lookup, Hr, getattr_run, Hd. }
  split_and!.
  - done.
  - intros n. unfold pad_top. step. by apply bind_raised.
  - intros x to_depth. unfold shift_pings. do 3 step. apply bind_raised.
    rewrite hasattr_lookup, Hr. apply bind_raised. apply bind_raised.
    by rewrite getattr_run, Hd.
  - intros new_vaxis. unfold interpolate. step. apply bind_raised.
    by rewrite !hasattr_lookup, Hr, Hd.
Qed.

#[local] Open Scope float_scope.

(** X22.  [shift_pings] with a shift that has no extent (a scalar, or a
    vector whose largest and smallest element differ by 0) moves no
    sample.  Without [to_depth], or on a grid without [range], the grid
    is what it was: the shifted axis is computed and bound to a local
    name only.  With [to_depth] on a grid whose [range] has an element,
    the call returns, [range] is gone, [depth] holds
    [i * sample_thickness + min(range) + shift] for [i = 0, 1, ...], and
    every other attribute is what it was. *)
Theorem shift_without_extent g vert_shift to_depth lo hi :
  np.min (shift_values vert_shift) = py.Returned lo →
  np.max (shift_values vert_shift) = py.Returned hi →
  (hi - lo =? 0) = true →
  let run := shift_pings C U vert_shift to_depth g in
  (to_depth = false ∨ hasattr "range" g = false → run.2 = g)
  ∧ (∀ a0 axis, attrs g !! "range" = Some (np.Float1 (a0 :: axis)) →
       run.1 = py.Returned tt
       ∧ (to_depth = true →
            attrs run.2 !! "range" = None
            ∧ attrs run.2 !! "depth"
              = Some (np.Float1
                        ((λ i, i * sample_thickness g
                               + foldl np.fmin a0 axis + lo)
                           <$> np.arange (n_samples g)))
            ∧ ∀ name, name ≠ "range" → name ≠ "depth" →
                attrs run.2 !! name = attrs g !! name)).
Proof.
  intros Hmin Hmax Hext. unfold shift_pings.
  cbv [mbind py_bind py.bind mret py_ret py.ret py.lift py.get py.raise
       py.modify getattr float1 hasattr vertical_axis].
  rewrite Hmin, Hmax, Hext. cbn [negb]. split.
  - destruct (attrs g !! "range") as [[v| |]|] eqn:Hr; simpl;
      rewrite ?Hr; simpl; try done.
    + destruct v as [|v0 v]; simpl; [done|].
      destruct to_depth; simpl; [|done]. by intros [?|?].
    + destruct (attrs g !! "depth") as [[v| |]|] eqn:Hd; simpl; try done.
      destruct v as [|v0 v]; simpl; done.
  - intros a0 axis Hr. rewrite Hr. simpl. rewrite Hr. simpl.
    destruct to_depth; simpl; (split; [done|]); [|done].
    intros _. split_and!.
    + by rewrite lookup_delete_eq.
    + by rewrite lookup_delete_ne, lookup_insert_eq.
    + intros name Hnr Hnd. by rewrite lookup_delete_ne, lookup_insert_ne.
Qed.

End conversions.

(** ** Interpolation to a shorter axis *)

Section shrinking.

Import processed_data.
Variable C : container.
Variable U : np.ufuncs.
Implicit Types (s : t).

Lemma interpolate_attr_skips new xp old_samps names s :
  Forall (λ name, ∃ a, attrs s !! name = Some a ∧ np.ndim a ≠ 2) names →
  py.for_each names (interpolate_attr new xp old_samps) s = (py.Returned tt, s).
Proof.
  induction 1 as [|name names (a & Ha & Hdim) _ IH]; [done|].
  cbn [py.for_each]. eapply bind_returned; [|exact IH].
  unfold interpolate_attr.
  step; [by unfold getattr; rewrite Ha|].
  by destruct a.
Qed.

(** X23.  [interpolate] on linear data to an axis of another length, when
    the resize returns and leaves, as the first 2-d array of the registry,
    an array whose first row has fewer samples than the old axis has
    elements (a base class that cuts the rows to a shorter new axis does
    so), on a grid that has a ping: [np.interp] gets the old axis as its
    sample points and the shorter row as their values, and the call
    raises [ValueError].  The grid is left resized, with [sample_thickness]
    set for the new axis, and no row of it is interpolated. *)
Theorem interpolate_to_a_shorter_axis_raises s new_vaxis old_vaxis s1 c
    before name after row rows :
  vertical_axis s = Some (np.Float1 old_vaxis) →
  length new_vaxis ≠ n_samples s →
  resize C (n_pings s) (length new_vaxis) s = (py.Returned tt, s1) →
  py.first_char (data_type s1) = py.Returned c →
  Ascii.eqb c (Ascii.ascii_of_nat 83) = false →
  _data_attributes s1 = before ++ name :: after →
  Forall (λ name, ∃ a, attrs s1 !! name = Some a ∧ np.ndim a ≠ 2) before →
  attrs s1 !! name = Some (np.Float2 (row :: rows)) →
  0 < n_pings s1 →
  length row < length old_vaxis →
  interpolate C U new_vaxis s
  = (py.Raised (py.ValueError "fp and xp are not of the same length."),
     set_sample_thickness (np.mean (np.ediff1d new_vaxis)) s1).
Proof.
  intros Haxis Hlen Hresize Hc Hlinear Hreg Hbefore Hname Hpings Hrow.
  set (s2 := set_sample_thickness (np.mean (np.ediff1d new_vaxis)) s1).
  unfold interpolate.
  step.
  step; [by apply read_axis|].
  apply Nat.eqb_neq in Hlen. rewrite Hlen. cbn [negb].
  eapply bind_returned; [by eapply bind_returned; [exact Hresize|]|].
  cbn iota.
  step. fold s2.
  eapply bind_returned.
  { unfold linear_if_log. step. step; [by unfold py.lift; simpl; rewrite Hc|].
    by rewrite Hlinear. }
  apply bind_raised.
  unfold interpolate_rows. step.
  change (_data_attributes s2) with (_data_attributes s1). rewrite Hreg.
  eapply for_each_raised; [by apply interpolate_attr_skips|].
  unfold interpolate_attr.
  step; [by unfold getattr; simpl; rewrite Hname|].
  cbn [np.ndim Nat.eqb].
  step.
  change (n_pings s2) with (n_pings s1).
  destruct (n_pings s1) as [|k]; [lia|].
  cbn [seq py.for_each]. apply bind_raised.
  unfold interpolate_ping.
  step; [by unfold getattr; simpl; rewrite Hname|].
  step.
  step.
  apply bind_raised. unfold py.lift, np.interp. simpl.
  destruct old_vaxis as [|x old]; [simpl in Hrow; lia|].
  cbn [length Nat.eqb].
  rewrite length_take.
  replace (_ =? _) with false; [done|].
  symmetry. apply Nat.eqb_neq. cbn [length] in Hrow. lia.
Qed.

End shrinking.

(** ** Interpolating twice, interpolating decibels *)

Section resampling_again.

Import processed_data.
Variable C : container.
Variable U : np.ufuncs.
Implicit Types (s : t) (rows : list (list float)).

(** [interpolate] on linear data to an axis of the grid's length that is
    not the grid's. *)
Lemma interpolate_linear_run new old s c :
  vertical_axis s = Some (np.Float1 old) →
  length new = n_samples s → length old = length new →
  np.all (zip_with np.isclose1 old new) = false →
  py.first_char (data_type s) = py.Returned c →
  Ascii.eqb c (Ascii.ascii_of_nat 83) = false →
  NoDup (_data_attributes s) →
  Forall (λ name, ∃ a, attrs s !! name = Some a
            ∧ ∀ rows, a = np.Float2 rows →
                length rows = n_pings s
                ∧ Forall (λ row, length row = length new) rows)
    (_data_attributes s) →
  ∃ s', interpolate C U new s = (py.Returned tt, s')
    ∧ (∀ name, attrs s' !! name
         = if bool_decide (name ∈ _data_attributes s)
           then resampled new old <$> attrs s !! name
           else attrs s !! name)
    ∧ s' = set_attrs (attrs s')
             (set_sample_thickness (np.mean (np.ediff1d new)) s).
Proof.
  intros Haxis Hn Hlen Hfar Hc Hlinear Hnodup Hwf.
  assert (0 < length old) as Hpos.
  { destruct old; [|simpl; lia]. by destruct new. }
  set (s2 := set_sample_thickness (np.mean (np.ediff1d new)) s).
  destruct (interpolate_rows_run new old s2 Hnodup Hwf) as (s' & Hrun & Hs' & Hlookup);
    [lia|].
  exists s'. split_and!; [|done|done].
  unfold interpolate.
  step.
  step; [by apply read_axis|].
  rewrite Hn, Nat.eqb_refl. cbn [negb].
  eapply bind_returned.
  { eapply bind_returned; [|reflexivity].
    unfold py.lift, np.isclose, np.broadcast2. by rewrite Hlen, Nat.eqb_refl. }
  rewrite Hfar.
  step. fold s2.
  eapply bind_returned.
  { unfold linear_if_log. step. step; [by unfold py.lift; simpl; rewrite Hc|].
    by rewrite Hlinear. }
  by step.
Qed.

Lemma vertical_axis_resampled new old (names : list string) s s' :
  vertical_axis s = Some (np.Float1 old) →
  (∀ name, attrs s' !! name
     = if bool_decide (name ∈ names)
       then resampled new old <$> attrs s !! name
       else attrs s !! name) →
  vertical_axis s' = Some (np.Float1 old).
Proof.
  unfold vertical_axis. intros Haxis Hlookup. rewrite !Hlookup.
  destruct (attrs s !! "range") as [a|] eqn:Hr.
  - injection Haxis as ->. by destruct (bool_decide _).
  - rewrite Haxis. by repeat destruct (bool_decide _).
Qed.

(** X24.  [interpolate] to the same new axis a second time, on linear
    data (the conditions are those of the first call: an axis of the grid's
    length of which some element is not close to the grid's): the second
    call returns, but it is no repetition without effect.  The axis array
    still holds the old axis after the first call, so every row of every
    registered 2-d array is interpolated once more, from the old axis to
    the new one. *)
Theorem interpolate_again_resamples_again new old s c :
  vertical_axis s = Some (np.Float1 old) →
  length new = n_samples s → length old = length new →
  np.all (zip_with np.isclose1 old new) = false →
  py.first_char (data_type s) = py.Returned c →
  Ascii.eqb c (Ascii.ascii_of_nat 83) = false →
  NoDup (_data_attributes s) →
  Forall (λ name, ∃ a, attrs s !! name = Some a
            ∧ ∀ rows, a = np.Float2 rows →
                length rows = n_pings s
                ∧ Forall (λ row, length row = length new) rows)
    (_data_attributes s) →
  ∃ s'', (interpolate C U new;; interpolate C U new) s = (py.Returned tt, s'')
    ∧ vertical_axis s'' = Some (np.Float1 old)
    ∧ ∀ name, attrs s'' !! name
        = if bool_decide (name ∈ _data_attributes s)
          then resampled new old <$> (resampled new old <$> attrs s !! name)
          else attrs s !! name.
Proof.
  intros Haxis Hn Hlen Hfar Hc Hlinear Hnodup Hwf.
  destruct (interpolate_linear_run new old s c) as (s' & Hrun & Hlookup & Hs');
    [done..|].
  assert (vertical_axis s' = Some (np.Float1 old)) as Haxis'
    by (eapply vertical_axis_resampled; [exact Haxis|exact Hlookup]).
  assert (n_samples s' = n_samples s ∧ n_pings s' = n_pings s
          ∧ data_type s' = data_type s
          ∧ _data_attributes s' = _data_attributes s) as (Hns & Hnp & Hdt & Hda).
  { by rewrite Hs'. }
  destruct (interpolate_linear_run new old s' c) as (s'' & Hrun' & Hlookup' & Hs'');
    [done|by rewrite Hns|done|done|by rewrite Hdt|done|by rewrite Hda|..].
  { rewrite Hda. apply Forall_forall. intros name Hin.
    rewrite Forall_forall in Hwf. destruct (Hwf name Hin) as (a & Ha & Hshape).
    exists (resampled new old a). split.
    - by rewrite Hlookup, bool_decide_eq_true_2, Ha.
    - intros rows' Hrows'. destruct a as [v|rows|ticks]; try done.
      injection Hrows' as <-. destruct (Hshape rows eq_refl) as [Hrows Hwidth].
      split; [by rewrite length_fmap, Hnp|].
      apply Forall_fmap, Forall_true. intros row. unfold interpolated.
      simpl. by rewrite length_fmap. }
  exists s''. split_and!.
  - by eapply bind_returned; [exact Hrun|].
  - eapply vertical_axis_resampled; [exact Haxis'|exact Hlookup'].
  - intros name. rewrite Hlookup', Hda, !Hlookup.
    by destruct (bool_decide _).
Qed.

End resampling_again.

Section decibels.

Import processed_data.

Variable C : container.
Variable U : np.ufuncs.
Implicit Types (s : t) (rows : list (list float)).

#[local] Open Scope float_scope.

(** X25.  [interpolate] on decibel data ([Sv] or [Sp], held under that
    name as [n_pings] rows of [n_samples] samples) to an axis of the
    grid's length that is not the grid's: the call returns, and every row
    is interpolated in the linear domain -- the array is
    [10 * log10(np.interp(new, old, 10 ** (row / 10)))] row by row.  The
    data type is the decibel one again, the linear array is gone,
    [sample_thickness] is the mean step of the new axis, and the axis array
    still holds the old axis. *)
Theorem interpolate_decibels_in_the_linear_domain s log lin rows new old :
  (log, lin) = ("Sv", "sv") ∨ (log, lin) = ("Sp", "sp") →
  data_type s = log →
  attrs s !! log = Some (np.Float2 rows) →
  length rows = n_pings s →
  Forall (λ row, length row = length new) rows →
  vertical_axis s = Some (np.Float1 old) →
  length new = n_samples s → length old = length new →
  np.all (zip_with np.isclose1 old new) = false →
  NoDup (_data_attributes s) →
  Forall (λ name, ∃ a, attrs s !! name = Some a
            ∧ ∀ rows, a = np.Float2 rows →
                length rows = n_pings s
                ∧ Forall (λ row, length row = length new) rows)
    (_data_attributes s) →
  ∃ s', interpolate C U new s = (py.Returned tt, s')
    ∧ data_type s' = log
    ∧ sample_thickness s' = np.mean (np.ediff1d new)
    ∧ attrs s' !! log
      = Some (np.Float2
                (map (map (λ y, 10 * np.log10 U y))
                   (interpolated new old
                      <$> map (map (λ x, np.power U 10 (x / 10))) rows)))
    ∧ attrs s' !! lin = None
    ∧ vertical_axis s' = Some (np.Float1 old).
Proof.
  intros Hnames Hdt Hlog Hrows Hwidth Haxis Hn Hlen Hfar Hnodup Hwf.
  assert (log ≠ lin ∧ log ≠ "range" ∧ log ≠ "depth" ∧ lin ≠ "range"
          ∧ lin ≠ "depth"
          ∧ py.first_char log = py.Returned (Ascii.ascii_of_nat 83))
    as (Hne & Hlr & Hld & Hnr & Hnd & Hfirst)
    by (by destruct Hnames as [[= -> ->]|[= -> ->]]).
  assert (0 < length old ≤ length new)%nat as Hpos.
  { split; [|lia]. destruct old; [|simpl; lia]. by destruct new. }
  set (s1 := set_sample_thickness (np.mean (np.ediff1d new)) s).
  set (linrows := map (map (λ x, np.power U 10 (x / 10))) rows).
  set (reg1 := if bool_decide (lin ∈ _data_attributes s) then _data_attributes s
               else _data_attributes s ++ [lin]).
  set (s2 := set_attrs (delete log (<[lin := np.Float2 linrows]> (attrs s)))
               (set__data_attributes (filter (λ n, n ≠ log) reg1)
                  (set_data_type lin s1))).
  assert (to_linear U s1 = (py.Returned tt, s2)) as Hlinear.
  { unfold to_linear. step.
    destruct Hnames as [[= -> ->]|[= -> ->]].
    - rewrite decide_True by done.
      step; [by unfold getattr; simpl; rewrite Hlog|]. by step.
    - rewrite decide_False by (simpl; by rewrite Hdt).
      rewrite decide_True by done.
      step; [by unfold getattr; simpl; rewrite Hlog|]. by step. }
  assert (NoDup (_data_attributes s2)) as Hnodup2.
  { simpl. apply NoDup_filter. subst reg1. case_bool_decide; [done|].
    apply NoDup_app. split_and!; [done| |apply NoDup_singleton].
    intros x Hx ->%list_elem_of_singleton. done. }
  destruct (interpolate_rows_run new old s2 Hnodup2) as (s3 & Hrun & Hs3 & Hlookup);
    [|done|].
  { simpl. apply Forall_forall. intros name [Hname Hin]%list_elem_of_filter.
    rewrite lookup_delete_ne by done.
    destruct (decide (name = lin)) as [->|Hnl].
    - rewrite lookup_insert_eq. eexists. split; [done|].
      intros rows' [= <-]. subst linrows. split; [by rewrite length_map|].
      apply Forall_forall. intros row' (row & -> & Hrow)%list_elem_of_fmap.
      rewrite length_map. by eapply Forall_forall in Hwidth.
    - rewrite lookup_insert_ne by done.
      rewrite Forall_forall in Hwf. apply Hwf.
      subst reg1. case_bool_decide; [done|].
      apply elem_of_app in Hin as [?|?%list_elem_of_singleton]; done. }
  assert (lin ∈ _data_attributes s2) as Hlin2.
  { simpl. apply list_elem_of_filter. split; [done|].
    subst reg1. case_bool_decide; [done|].
    apply elem_of_app. right. by apply list_elem_of_singleton. }
  assert (attrs s3 !! lin
          = Some (np.Float2 (interpolated new old <$> linrows))) as Hlin3.
  { rewrite Hlookup, bool_decide_eq_true_2 by done. simpl.
    by rewrite lookup_delete_ne, lookup_insert_eq. }
  assert (data_type s3 = lin) as Hdt3 by (by rewrite Hs3).
  eexists. split.
  - unfold interpolate.
    step.
    step; [by apply read_axis|].
    rewrite Hn, Nat.eqb_refl. cbn [negb].
    eapply bind_returned.
    { eapply bind_returned; [|reflexivity].
      unfold py.lift, np.isclose, np.broadcast2.
      by rewrite Hlen, Nat.eqb_refl. }
    rewrite Hfar.
    step. fold s1.
    eapply bind_returned.
    { unfold linear_if_log. step.
      step; [by unfold py.lift; simpl; rewrite Hdt, Hfirst|].
      rewrite Ascii.eqb_refl. by eapply bind_returned; [exact Hlinear|]. }
    eapply bind_returned; [exact Hrun|].
    unfold to_log. step.
    destruct Hnames as [[= -> ->]|[= -> ->]].
    + rewrite decide_True by done.
      step; [by unfold getattr; rewrite Hlin3|]. by step.
    + rewrite decide_False by (by rewrite Hdt3).
      rewrite decide_True by done.
      step; [by unfold getattr; rewrite Hlin3|]. by step.
  - simpl. split_and!.
    + done.
    + by rewrite Hs3.
    + by rewrite lookup_delete_ne, lookup_insert_eq.
    + by rewrite lookup_delete_eq.
    + unfold vertical_axis in *. simpl.
      rewrite !lookup_delete_ne, !lookup_insert_ne, !Hlookup by done.
      simpl. rewrite !lookup_delete_ne, !lookup_insert_ne by done.
      destruct (attrs s !! "range") as [a|] eqn:Hr.
      * injection Haxis as ->.
        by destruct (bool_decide ("range" ∈ filter (λ n, n ≠ log) reg1)).
      * rewrite Haxis.
        destruct (bool_decide ("range" ∈ filter (λ n, n ≠ log) reg1));
          by destruct (bool_decide ("depth" ∈ filter (λ n, n ≠ log) reg1)).
Qed.

End decibels.

(** ** The further theorems at work *)

Lemma pad_top_shifts_the_samples_power3 :
  ∃ g', processed_data.pad_top grid_container.it 2 examples.power3
        = (py.Returned tt, g')
    ∧ processed_data.vertical_axis g'
      = Some (np.Float1 [-2; -1; 0; 1; 2]%float)
    ∧ processed_data.attrs g' !! "power"
      = Some (np.Float2 [[nan; nan; 1; 2; 3]; [nan; nan; 4; 5; 6]]%float).
Proof.
  destruct (pad_top_shifts_the_samples grid_container.it examples.power3 2
              examples.power3_grown 0%float [1; 2; nan; nan]%float)
    as (g' & Hrun & Hg' & Haxis & Hattrs).
  - by vm_compute.
  - by vm_compute.
  - by vm_compute.
  - apply (bool_decide_unpack _). by vm_compute.
  - repeat constructor; eexists; (split; [reflexivity|]);
      intros rows [= <-] || (intros rows ?; discriminate).
    by repeat constructor.
  - exists g'. split_and!; [done| |].
    + rewrite Haxis. by vm_compute.
    + rewrite Hattrs by done. by vm_compute.
Defined.

Lemma setitem_mask_writes_every_sample_array_power3 :
  let h := examples.store examples.power3 examples.power2 in
  ∃ g', processed_data.__setitem__ grid_container.it float_ufuncs.it 0
          (processed_data.AssignMask examples.checks (processed_data.Num 0)) h
        = (py.Returned tt, <[0 := g']> h)
    ∧ processed_data.attrs g' !! "power"
      = Some (np.Float2 [[0; 2; 0]; [4; 0; 6]]%float)
    ∧ processed_data.attrs g' !! "range"
      = Some (np.Float1 [0; 1; 2]%float).
Proof.
  destruct (setitem_mask_writes_every_sample_array grid_container.it
              float_ufuncs.it 0 examples.power3 examples.checks
              [[true; false; true]; [false; true; false]] 0%float
              (examples.store examples.power3 examples.power2))
    as (g' & Hrun & Hg' & Hattrs).
  - reflexivity.
  - by vm_compute.
  - by vm_compute.
  - apply (bool_decide_unpack _). by vm_compute.
  - repeat constructor; eexists; (split; [reflexivity|]);
      intros rows [= <-] || (intros rows ?; discriminate).
    by vm_compute.
  - exists g'. split_and!; [done| |].
    + rewrite Hattrs. by vm_compute.
    + rewrite Hattrs. by vm_compute.
Defined.

Lemma setitem_slice_of_several_pings_raises_power3 :
  processed_data.__setitem__ grid_container.it float_ufuncs.it 0
    (processed_data.AssignSlice (Some 0) (Some 2) (Some 1%positive) (Some 1))
    (examples.store examples.power3 examples.power3_low)
  = (py.Raised (py.ValueError
       "The truth value of an array with more than one element is ambiguous. Use a.any() or a.all()"),
     examples.store examples.power3 examples.power3_low).
Proof.
  apply (setitem_slice_of_several_pings_raises grid_container.it
           float_ufuncs.it 0 0 2 1%positive (Some 1)).
  by vm_compute.
Defined.

Lemma getitem_ping_mask_first_ping :
  processed_data.__getitem__ (processed_data.KeyMask examples.first_ping)
    examples.power3
  = (py.Returned (processed_data.Array (np.Float1 [1; 2; 3]%float)),
     examples.power3).
Proof.
  destruct (getitem_ping_mask examples.power3 examples.first_ping [true; false])
    as (name & Hlast & Hrun & Hlen).
  - by vm_compute.
  - by vm_compute.
  - reflexivity.
  - reflexivity.
  - by repeat constructor.
  - repeat constructor.
  - by vm_compute.
  - vm_compute in Hlast. injection Hlast as <-. rewrite Hrun. by vm_compute.
Defined.

Lemma getitem_mask_without_sample_arrays_axes_only :
  processed_data.__getitem__ (processed_data.KeyMask examples.checks)
    examples.axes_only
  = (py.Raised (py.UnboundLocalError
       "local variable 'p_data' referenced before assignment"),
     examples.axes_only).
Proof.
  apply (getitem_mask_without_sample_arrays examples.axes_only examples.checks).
  - by vm_compute.
  - by vm_compute.
  - by repeat constructor.
  - reflexivity.
Defined.

Lemma getitem_slices_power3 :
  let g := processed_data.set_sample_offset 4 examples.power3 in
  ∃ p,
    processed_data.__getitem__
      (processed_data.KeySlices (np.Build_slice None None None)
         (np.Build_slice (Some 1) None None)) g
    = (py.Returned (processed_data.Instance p), g)
    ∧ processed_data.sample_offset p = 1
    ∧ processed_data.attrs p !! "power"
      = Some (np.Float2 [[2; 3]; [5; 6]]%float)
    ∧ processed_data.attrs p !! "range" = Some (np.Float1 [1; 2]%float).
Proof.
  destruct (getitem_slices (processed_data.set_sample_offset 4 examples.power3)
              (np.Build_slice None None None)
              (np.Build_slice (Some 1) None None))
    as (p & Hrun & _ & _ & _ & _ & _ & Hoffset & Hattrs).
  - done.
  - done.
  - by repeat constructor.
  - exists p. split_and!; [done|done| |].
    + rewrite Hattrs. by vm_compute.
    + rewrite Hattrs. by vm_compute.
Defined.

Lemma axis_with_nan_passes_no_check_power3_grown :
  (∀ m r, mask.range m = Some r →
     ∃ e, processed_data._check_mask m examples.power3_grown
          = (py.Raised e, examples.power3_grown))
  ∧ (∀ o, ∃ e, processed_data._is_like_me o examples.power3_grown
               = (py.Raised e, examples.power3_grown)).
Proof.
  apply (axis_with_nan_passes_no_check examples.power3_grown
           [0; 1; 2; nan; nan]%float).
  - reflexivity.
  - do 3 apply Exists_cons_tl. by apply Exists_cons_hd.
Defined.

Lemma methods_need_an_axis_new_instance :
  let g := processed_data.__init__ ["GPT 120 kHz"] 120000 "Sv" in
  (∀ new_ping_dim new_sample_dim,
     processed_data.resize grid_container.it new_ping_dim new_sample_dim g
     = (py.Raised (py.AttributeError
          "'processed_data' object has no attribute 'depth'"), g))
  ∧ (∀ n, processed_data.pad_top grid_container.it n g
          = (py.Raised (py.AttributeError
               "'processed_data' object has no attribute 'depth'"), g))
  ∧ (∀ x to_depth,
       processed_data.shift_pings grid_container.it float_ufuncs.it
         (processed_data.Scalar x) to_depth g
       = (py.Raised (py.AttributeError
            "'processed_data' object has no attribute 'depth'"), g))
  ∧ (∀ new_vaxis,
       processed_data.interpolate grid_container.it float_ufuncs.it new_vaxis g
       = (py.Raised (py.AttributeError
            "The data object has neither a range nor depth attribute."), g)).
Proof.
  apply (methods_need_an_axis grid_container.it float_ufuncs.it
           (processed_data.__init__ ["GPT 120 kHz"] 120000 "Sv"));
    reflexivity.
Defined.

Lemma shift_without_extent_power3 :
  let run := processed_data.shift_pings grid_container.it float_ufuncs.it
               (processed_data.Scalar 5) true examples.power3 in
  run.1 = py.Returned tt
  ∧ processed_data.attrs run.2 !! "range" = None
  ∧ processed_data.attrs run.2 !! "depth"
    = Some (np.Float1 [5; 6; 7]%float)
  ∧ processed_data.attrs run.2 !! "power"
    = processed_data.attrs examples.power3 !! "power".
Proof.
  destruct (shift_without_extent grid_container.it float_ufuncs.it
              examples.power3 (processed_data.Scalar 5) true 5%float 5%float)
    as [_ Hdepth]; [reflexivity|reflexivity|reflexivity|].
  destruct (Hdepth 0%float [1; 2]%float) as [Hrun Hattrs]; [reflexivity|].
  destruct (Hattrs eq_refl) as (Hr & Hd & Hother).
  split_and!; [done|done| |by apply Hother].
  rewrite Hd. by vm_compute.
Defined.

Lemma interpolate_to_a_shorter_axis_raises_power3_fine :
  processed_data.interpolate grid_container.it float_ufuncs.it [0; 1]%float
    examples.power3_fine
  = (py.Raised (py.ValueError "fp and xp are not of the same length."),
     processed_data.set_sample_thickness
       (np.mean (np.ediff1d [0; 1]%float)) examples.power3_fine_cut).
Proof.
  apply (interpolate_to_a_shorter_axis_raises grid_container.it float_ufuncs.it
           examples.power3_fine [0; 1]%float [0; 0.5; 1]%float
           examples.power3_fine_cut (Ascii.ascii_of_nat 112)
           ["range"; "ping_time"] "power" [] [1; 2]%float [[4; 5]]%float).
  - reflexivity.
  - by vm_compute.
  - by vm_compute.
  - reflexivity.
  - reflexivity.
  - reflexivity.
  - repeat constructor; eexists; (split; [reflexivity|]); by vm_compute.
  - reflexivity.
  - simpl. lia.
  - simpl. lia.
Defined.

Lemma interpolate_again_resamples_again_power3 :
  ∃ s'',
    (processed_data.interpolate grid_container.it float_ufuncs.it
       [0.5; 1.5; 2.5]%float;;
     processed_data.interpolate grid_container.it float_ufuncs.it
       [0.5; 1.5; 2.5]%float) examples.power3
    = (py.Returned tt, s'')
    ∧ processed_data.vertical_axis s'' = Some (np.Float1 [0; 1; 2]%float)
    ∧ processed_data.attrs s'' !! "power"
      = Some (np.Float2 [[2; nan; nan]; [5; nan; nan]]%float).
Proof.
  destruct (interpolate_again_resamples_again grid_container.it float_ufuncs.it
              [0.5; 1.5; 2.5]%float [0; 1; 2]%float examples.power3
              (Ascii.ascii_of_nat 112))
    as (s'' & Hrun & Haxis & Hattrs);
    [reflexivity | reflexivity | reflexivity | reflexivity | reflexivity
    | reflexivity | | | ].
  - apply (bool_decide_unpack _). by vm_compute.
  - repeat constructor; eexists; (split; [reflexivity|]);
      intros rows [= <-] || (intros rows ?; discriminate).
    split; [reflexivity|by repeat constructor].
  - exists s''. split_and!; [done|done|].
    rewrite Hattrs. by vm_compute.
Defined.

Lemma interpolate_decibels_in_the_linear_domain_Sv3 :
  ∃ s',
    processed_data.interpolate grid_container.it float_ufuncs.it
      [0.5; 1.5; 2.5]%float examples.Sv3
    = (py.Returned tt, s')
    ∧ processed_data.data_type s' = "Sv"
    ∧ processed_data.sample_thickness s'
      = np.mean (np.ediff1d [0.5; 1.5; 2.5]%float)
    ∧ processed_data.attrs s' !! "Sv"
      = Some (np.Float2
                (map (map (λ y, (10 * np.log10 float_ufuncs.it y)%float))
                   (processed_data.interpolated [0.5; 1.5; 2.5]%float
                      [0; 1; 2]%float
                      <$> map (map (λ x, np.power float_ufuncs.it 10
                                           (x / 10)%float))
                            [[0; -10; -20]; [-30; -40; -50]]%float)))
    ∧ processed_data.attrs s' !! "sv" = None
    ∧ processed_data.vertical_axis s' = Some (np.Float1 [0; 1; 2]%float).
Proof.
  apply (interpolate_decibels_in_the_linear_domain grid_container.it
           float_ufuncs.it examples.Sv3 "Sv" "sv");
    [by left | reflexivity | reflexivity | reflexivity | by repeat constructor
    | reflexivity | reflexivity | reflexivity | reflexivity | | ].
  - apply (bool_decide_unpack _). by vm_compute.
  - repeat constructor; eexists; (split; [reflexivity|]);
      intros rows [= <-] || (intros rows ?; discriminate).
    split; [reflexivity|by repeat constructor].
Defined.
